(** * Earthquake analysis: a shallow embedding of [earthquakes.py] and
      [earthquake_analysis.py], and the properties of the loader, the
      aggregator and the reporter.

    Conventions of the embedding.
    - A Python [int] is a [Z]; a NumPy integer array is a [list Z].
    - A magnitude read from the feed is a finite number, a [Q].  For the
      reporter and for the counts, a NumPy [float64] value is a [float64]:
      a finite rational or [NaN], with exact arithmetic on finite values.
    - What is proved of the averages is proved in module [Generic], for
      any type of float64 values and any mean function: it holds of the
      rounded arithmetic of NumPy.  Module [Binary64] has IEEE binary64
      values to run it on.
    - Module [Stateful] is the aggregator statement by statement on a heap
      of Python objects, where arrays are read, allocated and appended to.
    - A raised exception is the [Raise] branch of [result].
    - Printing, file access and the HTTP request are steps of a small
      state-and-exception monad over a [World]. *)

From Stdlib Require Import String Ascii ZArith QArith Qround List Bool Lia.
From Stdlib Require Import Sorting.Sorted Permutation.
From Stdlib Require Floats.PrimFloat Floats.FloatOps Floats.SpecFloat.
Import ListNotations.

Open Scope Z_scope.

(* ================================================================= *)
(** ** Exceptions and results *)

Inductive exn : Type :=
  | IndexError
  | ValueError
  | FileNotFoundError
  | PermissionError
  | JSONDecodeError
  | ConnectionError
  | TypeError.

Inductive result (A : Type) : Type :=
  | Ok (a : A)
  | Raise (e : exn).

Arguments Ok {A} a.
Arguments Raise {A} e.

Definition rbind {A B : Type} (r : result A) (k : A -> result B) : result B :=
  match r with
  | Ok a => k a
  | Raise e => Raise e
  end.

Declare Scope result_scope.
Delimit Scope result_scope with result.
Notation "x <- r ;; k" := (rbind r (fun x => k))
  (at level 61, r at next level, right associativity) : result_scope.
Notation "' p <- r ;; k" := (rbind r (fun p => k))
  (at level 61, p pattern, r at next level, right associativity) : result_scope.

(* ================================================================= *)
(** ** float64 values *)

Inductive float64 : Type :=
  | Fin (q : Q)
  | NaN.

Module F64.

Definition isnan (x : float64) : bool :=
  match x with NaN => true | Fin _ => false end.

Definition add (x y : float64) : float64 :=
  match x, y with
  | Fin a, Fin b => Fin (a + b)%Q
  | _, _ => NaN
  end.

(** IEEE comparisons: every comparison with [NaN] is false. *)
Definition leb (x y : float64) : bool :=
  match x, y with
  | Fin a, Fin b => Qle_bool a b
  | _, _ => false
  end.

Definition geb (x y : float64) : bool := leb y x.

(** Division of a sum by an element count, as [np.mean] does it; 0/0 is
    [NaN]. *)
Definition div_count (x : float64) (n : nat) : float64 :=
  match x, n with
  | Fin a, S _ => Fin (Qred (a / inject_Z (Z.of_nat n)))
  | _, _ => NaN
  end.

Definition of_int (z : Z) : float64 := Fin (inject_Z z).

End F64.

(* ================================================================= *)
(** ** The NumPy operations the program calls *)

Module np.

(** [ar.sort()]: ascending order, here by insertion into a sorted list. *)
Fixpoint sort_insert (x : Z) (l : list Z) : list Z :=
  match l with
  | [] => [x]
  | y :: tl => if x <=? y then x :: l else y :: sort_insert x tl
  end.

Definition sort (ar : list Z) : list Z := fold_right sort_insert [] ar.

(** [a[mask]] without the length check: the elements at the true
    positions, in order. *)
Fixpoint take_where {A : Type} (a : list A) (mask : list bool) : list A :=
  match a, mask with
  | x :: a', b :: mask' =>
      if b then x :: take_where a' mask' else take_where a' mask'
  | _, _ => []
  end.

(** [a[mask]]: boolean-mask indexing.  A mask whose length differs from
    the array's raises IndexError. *)
Definition bool_index {A : Type} (a : list A) (mask : list bool)
  : result (list A) :=
  if Nat.eqb (length a) (length mask) then Ok (take_where a mask)
  else Raise IndexError.

(** [aux[1:] != aux[:-1]], given the element before the slice. *)
Fixpoint neq_prev (prev : Z) (l : list Z) : list bool :=
  match l with
  | [] => []
  | y :: tl => negb (y =? prev) :: neq_prev y tl
  end.

(** The mask of [np.unique]: [mask[:1] = True; mask[1:] = aux[1:] != aux[:-1]]. *)
Definition unique_mask (aux : list Z) : list bool :=
  match aux with
  | [] => []
  | x :: tl => true :: neq_prev x tl
  end.

(** [np.unique(ar)]: sort, then keep the first element of every run. *)
Definition unique (ar : list Z) : list Z :=
  let aux := sort ar in
  take_where aux (unique_mask aux).

(** [years == year]: elementwise comparison with a scalar. *)
Definition eq_scalar (a : list Z) (v : Z) : list bool :=
  map (fun x => x =? v) a.

(** [np.sum] of an integer array.  The arrays summed in this program hold
    counts of records; the wrap-around of int64 is not modelled. *)
Definition sum (a : list Z) : Z := fold_left Z.add a 0.

(** [np.sum] of a float array. *)
Definition fsum (a : list float64) : float64 :=
  fold_left F64.add a (Fin 0).

(** [np.mean] of a float array in the exact model: the sum divided by the
    count, without rounding; the mean of no element is [NaN].  What is
    stated of the averages the aggregator returns is stated in [Generic],
    for any mean function. *)
Definition mean (a : list float64) : float64 :=
  F64.div_count (fsum a) (length a).

(** [np.mean] of an integer array: the elements are converted to float64. *)
Definition mean_int (a : list Z) : float64 :=
  mean (map F64.of_int a).

(** [np.argmax] / [np.argmin] scan from the left and move to a later
    index only when [better candidate current] holds, so the first
    extremal index is kept.  [arg_go] carries the current best index and
    value, and the index of the next element. *)
Section Arg.
Context {A : Type} (better : A -> A -> bool) (stop : A -> bool).

Fixpoint arg_go (best : nat) (bv : A) (i : nat) (l : list A) : nat :=
  if stop bv then best
  else match l with
       | [] => best
       | x :: tl =>
           if better x bv then arg_go i x (S i) tl
           else arg_go best bv (S i) tl
       end.

Definition arg_first (a : list A) : result nat :=
  match a with
  | [] => Raise ValueError
  | x :: tl => Ok (arg_go 0%nat x 1%nat tl)
  end.
End Arg.

(** Integer arrays: an element replaces the current best [mp] only when
    it is strictly greater (argmax) or strictly smaller (argmin). *)
Definition argmax (a : list Z) : result nat :=
  arg_first (fun x m => m <? x) (fun _ => false) a.
Definition argmin (a : list Z) : result nat :=
  arg_first (fun x m => x <? m) (fun _ => false) a.

(** Float arrays: an element replaces [mp] when [not (elt <= mp)]
    (argmax) or [not (elt >= mp)] (argmin), which a NaN always does; the
    scan ends at the first NaN. *)
Definition fargmax (a : list float64) : result nat :=
  arg_first (fun x m => negb (F64.leb x m)) F64.isnan a.
Definition fargmin (a : list float64) : result nat :=
  arg_first (fun x m => negb (F64.geb x m)) F64.isnan a.

(** [a[i]] with a non-negative index. *)
Definition item {A : Type} (a : list A) (i : nat) : result A :=
  match nth_error a i with
  | Some x => Ok x
  | None => Raise IndexError
  end.

(** [a[-1]]. *)
Definition last_item {A : Type} (a : list A) : result A :=
  match rev a with
  | x :: _ => Ok x
  | [] => Raise IndexError
  end.

(** [np.max] / [np.min]: the value at the extremal index. *)
Definition max (a : list Z) : result Z :=
  (i <- argmax a ;; item a i)%result.
Definition min (a : list Z) : result Z :=
  (i <- argmin a ;; item a i)%result.
Definition fmax (a : list float64) : result float64 :=
  (i <- fargmax a ;; item a i)%result.
Definition fmin (a : list float64) : result float64 :=
  (i <- fargmin a ;; item a i)%result.

End np.

(* ================================================================= *)
(** ** earthquake_analysis.py: the aggregator *)

(** The body of [for year in unique_years]: one iteration appends to the
    two accumulators, or raises. *)
Definition year_step (years : list Z) (magnitudes : list float64)
    (acc : list Z * list float64) (year : Z)
  : result (list Z * list float64) :=
  let '(frequency_per_year, avg_magnitude_per_year) := acc in
  let year_mask := np.eq_scalar years year in
  (year_magnitudes <- np.bool_index magnitudes year_mask ;;
   let frequency := Z.of_nat (length year_magnitudes) in
   let avg_magnitude := np.mean year_magnitudes in
   Ok (frequency_per_year ++ [frequency],
       avg_magnitude_per_year ++ [avg_magnitude]))%result.

Fixpoint year_loop (years : list Z) (magnitudes : list float64)
    (unique_years : list Z) (acc : list Z * list float64)
  : result (list Z * list float64) :=
  match unique_years with
  | [] => Ok acc
  | year :: rest =>
      (acc' <- year_step years magnitudes acc year ;;
       year_loop years magnitudes rest acc')%result
  end.

Definition analyze_earthquakes_by_year (years : list Z)
    (magnitudes : list float64)
  : result (list Z * list Z * list float64) :=
  let unique_years := np.unique years in
  ('(frequency_per_year, avg_magnitude_per_year) <-
     year_loop years magnitudes unique_years ([], []) ;;
   Ok (unique_years, frequency_per_year, avg_magnitude_per_year))%result.

(* ================================================================= *)
(** ** The record set: the feed's response shape *)

Record Properties : Type := { time : Z; mag : Q }.

(** [coordinates] is the 3-element array longitude, latitude, altitude. *)
Record Geometry : Type := { coordinates : Q * Q * Q }.

Record Feature : Type := { properties : Properties; geometry : Geometry }.

Record Data : Type := { features : list Feature }.

(** [np.array(magnitudes)]: a list of finite Python floats as a float64
    array. *)
Definition np_array_float (l : list Q) : list float64 := map Fin l.

Section Extract.

(** [datetime.fromtimestamp(t).year]: the calendar year of the instant
    [t] (seconds since the epoch) in the platform's local time zone.  It
    belongs to the Python library and to the platform, and is taken as a
    parameter.  It raises for an instant that [datetime] cannot hold
    (ValueError for a year outside 1..9999; OverflowError or OSError
    beyond the platform's range).  The quotient [timestamp_ms / 1000] is
    handed over as the exact rational; its rounding to a float, which
    does not move a millisecond count across a year boundary, and the
    OverflowError of a quotient too large for a float belong to the
    parameter. *)
Variable fromtimestamp_year : Q -> result Z.

(** The body of [for earthquake in data["features"]]; an exception of the
    conversion leaves the loop and the function. *)
Fixpoint extract_loop (earthquakes : list Feature)
    (years : list Z) (magnitudes : list Q) : result (list Z * list Q) :=
  match earthquakes with
  | [] => Ok (years, magnitudes)
  | earthquake :: rest =>
      let timestamp_ms := time (properties earthquake) in
      (year <- fromtimestamp_year (inject_Z timestamp_ms / 1000)%Q ;;
       let magnitude := mag (properties earthquake) in
       extract_loop rest (years ++ [year]) (magnitudes ++ [magnitude]))%result
  end.

Definition extract_earthquake_data (data : Data)
  : result (list Z * list float64) :=
  ('(years, magnitudes) <- extract_loop (features data) [] [] ;;
   Ok (years, np_array_float magnitudes))%result.

End Extract.

(** A conversion to instantiate the parameter with: the proleptic Gregorian
    year of an instant, for a zone [utcoffset] seconds east of UTC. *)
Definition year_of_days (days : Z) : Z :=
  let z := days + 719468 in
  let era := z / 146097 in
  let doe := z - era * 146097 in
  let yoe := (doe - doe / 1460 + doe / 36524 - doe / 146096) / 365 in
  let doy := doe - (365 * yoe + yoe / 4 - yoe / 100) in
  let mp := (5 * doy + 2) / 153 in
  let m := if mp <? 10 then mp + 3 else mp - 9 in
  yoe + era * 400 + (if m <=? 2 then 1 else 0).

Definition zone_year (utcoffset : Z) (t : Q) : Z :=
  year_of_days ((Qfloor t + utcoffset) / 86400).

(** [datetime.fromtimestamp(t).year] on a platform whose zone is
    [utcoffset] seconds east of UTC: [datetime] holds the years 1 to 9999
    and raises ValueError for an instant in another year. *)
Definition fromtimestamp_year_in_zone (utcoffset : Z) (t : Q) : result Z :=
  let year := zone_year utcoffset t in
  if (1 <=? year) && (year <=? 9999) then Ok year else Raise ValueError.

(* ================================================================= *)
(** ** The world: console, cache file and feed *)

(** What [print] writes: an f-string is a list of fragments. *)
Inductive Fragment : Type :=
  | Str (s : string)
  | Int (z : Z)
  | FltFixed (digits : nat) (x : float64).

Definition Line : Type := list Fragment.

(** The text of a file or of a response body: the serialisation of a record
    set, or something [json] cannot parse. *)
Inductive Text : Type :=
  | JsonText (d : Data)
  | Malformed.

Inductive FileState : Type :=
  | Absent
  | Unreadable (e : exn)
  | Present (content : Text).

Inductive Event : Type :=
  | Printed (l : Line)
  | Requested (url : string) (params : list (string * string)).

Record World : Type := {
  cache_file : FileState;       (** the state of earthquake_data.json *)
  open_write_fault : option exn;(** what [open(filename, 'w')] raises, if anything *)
  dump_fault : option exn;      (** what [json.dump] raises, if anything *)
  feed : result Text;           (** what [requests.get] answers: a body, or raises *)
  events : list Event           (** lines printed and requests sent, oldest first *)
}.

Definition IO (A : Type) : Type := World -> result A * World.

Definition ret {A : Type} (a : A) : IO A := fun w => (Ok a, w).

Definition raise {A : Type} (e : exn) : IO A := fun w => (Raise e, w).

Definition bind {A B : Type} (m : IO A) (k : A -> IO B) : IO B :=
  fun w =>
    match m w with
    | (Ok a, w') => k a w'
    | (Raise e, w') => (Raise e, w')
    end.

Definition lift {A : Type} (r : result A) : IO A := fun w => (r, w).

(** [try: body except E: handler] for the exceptions [handles] accepts. *)
Definition try_except {A : Type} (body : IO A) (handles : exn -> bool)
    (handler : IO A) : IO A :=
  fun w =>
    match body w with
    | (Ok a, w') => (Ok a, w')
    | (Raise e, w') => if handles e then handler w' else (Raise e, w')
    end.

Declare Scope io_scope.
Delimit Scope io_scope with io.
Notation "x <- m ;; k" := (bind m (fun x => k))
  (at level 61, m at next level, right associativity) : io_scope.
Notation "m ;; k" := (bind m (fun _ => k))
  (at level 61, right associativity) : io_scope.

Definition log (ev : Event) (w : World) : World :=
  {| cache_file := cache_file w;
     open_write_fault := open_write_fault w;
     dump_fault := dump_fault w;
     feed := feed w;
     events := events w ++ [ev] |}.

Definition set_cache_file (st : FileState) (w : World) : World :=
  {| cache_file := st;
     open_write_fault := open_write_fault w;
     dump_fault := dump_fault w;
     feed := feed w;
     events := events w |}.

Definition print_line (l : Line) : IO unit := fun w => (Ok tt, log (Printed l) w).

Definition print (s : string) : IO unit := print_line [Str s].

(** [json.loads] and [json.load]. *)
Definition json_loads (t : Text) : result Data :=
  match t with
  | JsonText d => Ok d
  | Malformed => Raise JSONDecodeError
  end.

(** [with open(filename, 'r') as f: json.load(f)]: a missing file raises
    FileNotFoundError, an unreadable one its own error, an unparsable one
    JSONDecodeError. *)
Definition open_read_json_load : IO Data :=
  fun w =>
    match cache_file w with
    | Absent => (Raise FileNotFoundError, w)
    | Unreadable e => (Raise e, w)
    | Present content => (json_loads content, w)
    end.

(** [with open(filename, 'w') as f: json.dump(data, f, indent=2)]: opening
    truncates the file; a failed dump leaves it incomplete. *)
Definition open_write_json_dump (data : Data) : IO unit :=
  fun w =>
    match open_write_fault w with
    | Some e => (Raise e, w)
    | None =>
        match dump_fault w with
        | Some e => (Raise e, set_cache_file (Present Malformed) w)
        | None => (Ok tt, set_cache_file (Present (JsonText data)) w)
        end
    end.

(** [requests.get(url, params=...)], then [response.text]. *)
Definition requests_get_text (url : string) (params : list (string * string))
  : IO Text :=
  fun w => (feed w, log (Requested url params) w).

(* ================================================================= *)
(** ** earthquakes.py: the loader *)

Open Scope string_scope.

Definition filename : string := "earthquake_data.json".

Definition feed_url : string :=
  "http://earthquake.usgs.gov/fdsnws/event/1/query.geojson".

Definition feed_params : list (string * string) :=
  [ ("starttime", "2000-01-01");
    ("maxlatitude", "58.723");
    ("minlatitude", "50.008");
    ("maxlongitude", "1.67");
    ("minlongitude", "-9.756");
    ("minmagnitude", "1");
    ("endtime", "2018-10-11");
    ("orderby", "time-asc") ].

Definition is_FileNotFoundError (e : exn) : bool :=
  match e with FileNotFoundError => true | _ => false end.

(** The [if use_local_file:] block.  [Some data] is its [return data];
    [None] is falling out of the block, after the handler or when the flag
    is off. *)
Definition load_local (use_local_file : bool) : IO (option Data) :=
  if use_local_file then
    try_except
      (data <- open_read_json_load ;;
       print "Loaded data from local file" ;;
       ret (Some data))%io
      is_FileNotFoundError
      (print ("Local file " ++ filename ++ " not found. Fetching from API...") ;;
       ret None)%io
  else ret None.

(** The rest of [get_data], from [# Fetch from API] on. *)
Definition fetch_from_api (save_to_file : bool) : IO Data :=
  (print "Fetching data from API..." ;;
   response_text <- requests_get_text feed_url feed_params ;;
   data <- lift (json_loads response_text) ;;
   (if save_to_file then
      (open_write_json_dump data ;;
       print ("Data saved to " ++ filename))
    else ret tt) ;;
   ret data)%io.

Definition get_data (use_local_file save_to_file : bool) : IO Data :=
  (local <- load_local use_local_file ;;
   match local with
   | Some data => ret data
   | None => fetch_from_api save_to_file
   end)%io.

Definition count_earthquakes (data : Data) : nat := length (features data).

Definition get_magnitude (earthquake : Feature) : Q :=
  mag (properties earthquake).

(** [coordinates[1], coordinates[0]]: latitude, longitude. *)
Definition get_location (earthquake : Feature) : Q * Q :=
  let '(longitude, latitude, _) := coordinates (geometry earthquake) in
  (latitude, longitude).

Definition Qltb (x y : Q) : bool := negb (Qle_bool y x).

(** Python's [max(iterable, key=key)]: the running maximum is replaced only
    by an item whose key is strictly greater; no item raises ValueError. *)
Fixpoint max_go {A : Type} (key : A -> Q) (maxitem : A) (rest : list A) : A :=
  match rest with
  | [] => maxitem
  | item :: rest' =>
      if Qltb (key maxitem) (key item) then max_go key item rest'
      else max_go key maxitem rest'
  end.

Definition py_max {A : Type} (key : A -> Q) (l : list A) : result A :=
  match l with
  | [] => Raise ValueError
  | first :: rest => Ok (max_go key first rest)
  end.

Definition get_maximum (data : Data) : result (Q * (Q * Q)) :=
  (max_earthquake <- py_max get_magnitude (features data) ;;
   Ok (get_magnitude max_earthquake, get_location max_earthquake))%result.

(* ================================================================= *)
(** ** earthquake_analysis.py: the reporter *)

Definition newline : string := String (ascii_of_nat 10) EmptyString.

Fixpoint str_mul (s : string) (n : nat) : string :=
  match n with
  | O => ""
  | S n' => s ++ str_mul s n'
  end.

Definition print_summary_statistics (years frequency : list Z)
    (avg_magnitude : list float64) : IO unit :=
  (print (newline ++ str_mul "=" 50) ;;
   print "EARTHQUAKE ANALYSIS SUMMARY" ;;
   print (str_mul "=" 50) ;;
   first_year <- lift (np.item years 0) ;;
   last_year <- lift (np.last_item years) ;;
   print_line [Str "Data period: "; Int first_year; Str " - "; Int last_year] ;;
   print_line [Str "Total years analyzed: "; Int (Z.of_nat (length years))] ;;
   print_line [Str "Total earthquakes: "; Int (np.sum frequency)] ;;
   print_line [Str "Average earthquakes per year: ";
               FltFixed 1 (np.mean_int frequency)] ;;
   most <- lift (np.argmax frequency) ;;
   most_year <- lift (np.item years most) ;;
   most_count <- lift (np.max frequency) ;;
   print_line [Str "Year with most earthquakes: "; Int most_year;
               Str " ("; Int most_count; Str " earthquakes)"] ;;
   fewest <- lift (np.argmin frequency) ;;
   fewest_year <- lift (np.item years fewest) ;;
   fewest_count <- lift (np.min frequency) ;;
   print_line [Str "Year with fewest earthquakes: "; Int fewest_year;
               Str " ("; Int fewest_count; Str " earthquakes)"] ;;
   print_line [Str "Overall average magnitude: ";
               FltFixed 2 (np.mean avg_magnitude)] ;;
   highest <- lift (np.fargmax avg_magnitude) ;;
   highest_year <- lift (np.item years highest) ;;
   highest_avg <- lift (np.fmax avg_magnitude) ;;
   print_line [Str "Highest average magnitude year: "; Int highest_year;
               Str " (avg: "; FltFixed 2 highest_avg; Str ")"] ;;
   lowest <- lift (np.fargmin avg_magnitude) ;;
   lowest_year <- lift (np.item years lowest) ;;
   lowest_avg <- lift (np.fmin avg_magnitude) ;;
   print_line [Str "Lowest average magnitude year: "; Int lowest_year;
               Str " (avg: "; FltFixed 2 lowest_avg; Str ")"])%io.

Close Scope string_scope.

(* ================================================================= *)
(** ** Specification vocabulary *)


(** The magnitudes at the given positions. *)
Definition magnitudes_at (magnitudes : list float64) (ps : list nat)
  : list float64 :=
  map (fun p => nth p magnitudes NaN) ps.

(** The number of distinct values of a sequence. *)
Definition distinct_count (l : list Z) : nat := length (nodup Z.eq_dec l).

(** What [np.unique] keeps of a sorted tail that follows [prev]. *)
Definition uniq_from (prev : Z) (l : list Z) : list Z :=
  np.take_where l (np.neq_prev prev l).

(** A record set and worlds to run the loader in. *)
Definition sample_feature (t : Z) (m : Q) : Feature :=
  {| properties := {| time := t; mag := m |};
     geometry := {| coordinates := (-3, 54, 10)%Q |} |}.

Definition sample_data : Data :=
  {| features := [ sample_feature 946684800000 2;
                   sample_feature 978307199000 4;
                   sample_feature 978307200000 3 ] |}.

Definition world_with (file : FileState) (open_fault dump : option exn)
  : World :=
  {| cache_file := file; open_write_fault := open_fault; dump_fault := dump;
     feed := Ok (JsonText sample_data); events := [] |}.

(** The world after some more events. *)
Definition emit (evs : list Event) (w : World) : World :=
  {| cache_file := cache_file w;
     open_write_fault := open_write_fault w;
     dump_fault := dump_fault w;
     feed := feed w;
     events := events w ++ evs |}.

(** The lines the loader prints. *)
Definition cache_miss_line : Event :=
  Printed [Str "Local file earthquake_data.json not found. Fetching from API..."%string].
Definition fetching_line : Event :=
  Printed [Str "Fetching data from API..."%string].
Definition saved_line : Event :=
  Printed [Str "Data saved to earthquake_data.json"%string].

(** [v] is extremal among [vals] for the order [le]: every value is below
    it. *)
Definition attains {A : Type} (le : A -> A -> bool) (vals : list A) (v : A)
  : Prop :=
  forall x, In x vals -> le x v = true.

(** [i] is the first index of [vals] that holds an extremal value. *)
Definition first_extreme {A : Type} (le : A -> A -> bool) (vals : list A)
    (i : nat) (v : A) : Prop :=
  nth_error vals i = Some v /\
  attains le vals v /\
  forall k x, (k < i)%nat -> nth_error vals k = Some x -> le v x = false.

(** [year] holds the extremal value [v], and every other year that holds
    an extremal value is later. *)
Definition earliest_year_attaining {A : Type} (le : A -> A -> bool)
    (years : list Z) (vals : list A) (year : Z) (v : A) : Prop :=
  exists i,
    nth_error years i = Some year /\
    nth_error vals i = Some v /\
    attains le vals v /\
    forall j year_j v_j,
      j <> i ->
      nth_error years j = Some year_j ->
      nth_error vals j = Some v_j ->
      attains le vals v_j ->
      year < year_j.

Definition is_finite (x : float64) : Prop := F64.isnan x = false.

(** The twelve lines of the summary, given the values they show. *)
Definition summary_report (years frequency : list Z)
    (avg_magnitude : list float64)
    (most_year most_count fewest_year fewest_count : Z)
    (highest_year : Z) (highest_avg : float64)
    (lowest_year : Z) (lowest_avg : float64) : list Event :=
  [ Printed [Str (newline ++ str_mul "=" 50)%string];
    Printed [Str "EARTHQUAKE ANALYSIS SUMMARY"%string];
    Printed [Str (str_mul "=" 50)];
    Printed [Str "Data period: "%string; Int (hd 0 years);
             Str " - "%string; Int (last years 0)];
    Printed [Str "Total years analyzed: "%string;
             Int (Z.of_nat (length years))];
    Printed [Str "Total earthquakes: "%string; Int (np.sum frequency)];
    Printed [Str "Average earthquakes per year: "%string;
             FltFixed 1 (np.mean_int frequency)];
    Printed [Str "Year with most earthquakes: "%string; Int most_year;
             Str " ("%string; Int most_count; Str " earthquakes)"%string];
    Printed [Str "Year with fewest earthquakes: "%string; Int fewest_year;
             Str " ("%string; Int fewest_count; Str " earthquakes)"%string];
    Printed [Str "Overall average magnitude: "%string;
             FltFixed 2 (np.mean avg_magnitude)];
    Printed [Str "Highest average magnitude year: "%string; Int highest_year;
             Str " (avg: "%string; FltFixed 2 highest_avg; Str ")"%string];
    Printed [Str "Lowest average magnitude year: "%string; Int lowest_year;
             Str " (avg: "%string; FltFixed 2 lowest_avg; Str ")"%string] ].

(* ================================================================= *)
(** ** earthquake_analysis.py: the entry point *)

Section Main.

(** [datetime.fromtimestamp(t).year], as in [extract_earthquake_data]. *)
Variable fromtimestamp_year : Q -> result Z.

(** [create_plots] draws with matplotlib, saves the figure and shows it.
    The drawing library is outside the program; [main] is given the
    function as a parameter and calls it last. *)
Variable create_plots : list Z -> list Z -> list float64 -> IO unit.

Definition main : IO unit :=
  (print "Loading earthquake data..."%string ;;
   data <- get_data true false ;;
   print_line [Str "Loaded "%string;
               Int (Z.of_nat (length (features data)));
               Str " earthquakes"%string] ;;
   extracted <- lift (extract_earthquake_data fromtimestamp_year data) ;;
   let '(years, magnitudes) := extracted in
   r <- lift (analyze_earthquakes_by_year years magnitudes) ;;
   let '(unique_years, frequency_per_year, avg_magnitude_per_year) := r in
   print_summary_statistics
     unique_years frequency_per_year avg_magnitude_per_year ;;
   create_plots unique_years frequency_per_year avg_magnitude_per_year)%io.

End Main.

(** ** More vocabulary for the loader, the reporter and the entry point *)

Definition loaded_local_line : Event :=
  Printed [Str "Loaded data from local file"%string].

Definition loading_line : Event :=
  Printed [Str "Loading earthquake data..."%string].

Definition loaded_count_line (data : Data) : Event :=
  Printed [Str "Loaded "%string; Int (Z.of_nat (length (features data)));
           Str " earthquakes"%string].

Definition request_event : Event := Requested feed_url feed_params.

Definition is_request (ev : Event) : bool :=
  match ev with Requested _ _ => true | Printed _ => false end.

(** The number of HTTP requests among some events. *)
Definition requests_in (evs : list Event) : nat :=
  length (filter is_request evs).

(** The three lines that open the summary. *)
Definition summary_header : list Event :=
  [ Printed [Str (newline ++ str_mul "=" 50)%string];
    Printed [Str "EARTHQUAKE ANALYSIS SUMMARY"%string];
    Printed [Str (str_mul "=" 50)] ].

(** The four lines that follow the header and need only a first and a last
    year. *)
Definition summary_totals (years frequency : list Z) : list Event :=
  [ Printed [Str "Data period: "%string; Int (hd 0 years);
             Str " - "%string; Int (last years 0)];
    Printed [Str "Total years analyzed: "%string;
             Int (Z.of_nat (length years))];
    Printed [Str "Total earthquakes: "%string; Int (np.sum frequency)];
    Printed [Str "Average earthquakes per year: "%string;
             FltFixed 1 (np.mean_int frequency)] ].

(** A computation that does nothing to the world but print lines: in every
    world, what it leaves is that world with some printed lines added. *)
Definition prints_only {A : Type} (m : IO A) : Prop :=
  forall w, exists lines, snd (m w) = emit (map Printed lines) w.

(** The feed gives no record set: the request raises [e], or the body is
    not JSON and parsing raises [e]. *)
Definition feed_fails (w : World) (e : exn) : Prop :=
  feed w = Raise e \/ (feed w = Ok Malformed /\ e = JSONDecodeError).

(** The cache file can be written. *)
Definition writable (w : World) : Prop :=
  open_write_fault w = None /\ dump_fault w = None.

(* ================================================================= *)
(** ** The aggregator over any float64 arithmetic *)


(** The aggregator once more, for any type [F] of float64 values and any
    function [np_mean] from arrays to values.  Nothing is assumed of the
    order in which NumPy adds, of its rounding or of what it does on
    overflow: what is proved of this function holds of the float64 mean
    NumPy computes. *)
Module Generic.
Section WithMean.

Context {F : Type} (np_mean : list F -> F).

Definition year_step (years : list Z) (magnitudes : list F)
    (acc : list Z * list F) (year : Z) : result (list Z * list F) :=
  let '(frequency_per_year, avg_magnitude_per_year) := acc in
  let year_mask := np.eq_scalar years year in
  (year_magnitudes <- np.bool_index magnitudes year_mask ;;
   let frequency := Z.of_nat (length year_magnitudes) in
   let avg_magnitude := np_mean year_magnitudes in
   Ok (frequency_per_year ++ [frequency],
       avg_magnitude_per_year ++ [avg_magnitude]))%result.

Fixpoint year_loop (years : list Z) (magnitudes : list F)
    (unique_years : list Z) (acc : list Z * list F)
  : result (list Z * list F) :=
  match unique_years with
  | [] => Ok acc
  | year :: rest =>
      (acc' <- year_step years magnitudes acc year ;;
       year_loop years magnitudes rest acc')%result
  end.

Definition analyze_earthquakes_by_year (years : list Z) (magnitudes : list F)
  : result (list Z * list Z * list F) :=
  let unique_years := np.unique years in
  ('(frequency_per_year, avg_magnitude_per_year) <-
     year_loop years magnitudes unique_years ([], []) ;;
   Ok (unique_years, frequency_per_year, avg_magnitude_per_year))%result.

End WithMean.
End Generic.

(** ** IEEE binary64 values *)

Module Binary64.

(** The float64 value of a count. *)
Definition of_nat (n : nat) : PrimFloat.float :=
  Nat.iter n (fun x => PrimFloat.add x PrimFloat.one) PrimFloat.zero.

(** The float64 value nearest to [n / d]: what [json] reads from the
    decimal numeral of that quotient, as 0.1 for 1 and 10. *)
Definition nearest (n d : nat) : PrimFloat.float :=
  PrimFloat.div (of_nat n) (of_nat d).

(** [np.mean] of a float64 array of fewer than eight elements: NumPy adds
    them to 0.0 one by one from the left, each sum rounded, and divides
    by the count.  (Longer arrays are added in blocks of eight.) *)
Definition mean_of_few (a : list PrimFloat.float) : PrimFloat.float :=
  PrimFloat.div (fold_left PrimFloat.add a PrimFloat.zero)
                (of_nat (length a)).


End Binary64.


(* ================================================================= *)
(** ** The aggregator on the Python heap *)

(** A computation on a state [S] that returns or raises. *)
Definition Run (S A : Type) : Type := S -> result A * S.

Definition run_ret {S A : Type} (a : A) : Run S A := fun s => (Ok a, s).

Definition run_lift {S A : Type} (r : result A) : Run S A := fun s => (r, s).

Definition run_bind {S A B : Type} (m : Run S A) (k : A -> Run S B)
  : Run S B :=
  fun s =>
    match m s with
    | (Ok a, s') => k a s'
    | (Raise e, s') => (Raise e, s')
    end.

Declare Scope run_scope.
Delimit Scope run_scope with run.
Notation "x <- m ;; k" := (run_bind m (fun x => k))
  (at level 61, m at next level, right associativity) : run_scope.
Notation "m ;; k" := (run_bind m (fun _ => k))
  (at level 61, right associativity) : run_scope.

(** The aggregator statement by statement on a heap of Python objects.
    Arrays and lists are objects at addresses; an array operation of NumPy
    reads its operands and puts its result in a new object; [append]
    changes the list it is called on.  An operation applied to an object
    of another kind than the function is written for raises TypeError
    here. *)
Module Stateful.
Section WithMean.

Context {F : Type} (np_mean : list F -> F).

Inductive object : Type :=
  | IntArray (a : list Z)
  | FloatArray (a : list F)
  | BoolArray (a : list bool)
  | IntList (l : list Z)
  | FloatList (l : list F).

(** The heap: the object at address [r] is the [r]-th element. *)
Definition heap : Type := list object.

Definition alloc (o : object) : Run heap nat :=
  fun h => (Ok (length h), h ++ [o]).

Definition load (r : nat) : Run heap object :=
  fun h =>
    match nth_error h r with
    | Some o => (Ok o, h)
    | None => (Raise TypeError, h)
    end.

Fixpoint replace_at (r : nat) (o : object) (h : heap) : heap :=
  match h, r with
  | [], _ => []
  | _ :: tl, O => o :: tl
  | x :: tl, S r' => x :: replace_at r' o tl
  end.

Definition store (r : nat) (o : object) : Run heap unit :=
  fun h => (Ok tt, replace_at r o h).

(** [np.unique(a)]. *)
Definition np_unique (a : nat) : Run heap nat :=
  (o <- load a ;;
   match o with
   | IntArray ys => alloc (IntArray (np.unique ys))
   | _ => run_lift (Raise TypeError)
   end)%run.

(** [len(a)] and [a[i]] of an integer array. *)
Definition int_array_len (a : nat) : Run heap nat :=
  (o <- load a ;;
   match o with
   | IntArray ys => run_ret (length ys)
   | _ => run_lift (Raise TypeError)
   end)%run.

Definition int_array_item (a : nat) (i : nat) : Run heap Z :=
  (o <- load a ;;
   match o with
   | IntArray ys => run_lift (np.item ys i)
   | _ => run_lift (Raise TypeError)
   end)%run.

(** [a == v]. *)
Definition np_eq_scalar (a : nat) (v : Z) : Run heap nat :=
  (o <- load a ;;
   match o with
   | IntArray ys => alloc (BoolArray (np.eq_scalar ys v))
   | _ => run_lift (Raise TypeError)
   end)%run.

(** [a[mask]]. *)
Definition np_bool_index (a mask : nat) : Run heap nat :=
  (o <- load a ;;
   m <- load mask ;;
   match o, m with
   | FloatArray ms, BoolArray bs =>
       selected <- run_lift (np.bool_index ms bs) ;;
       alloc (FloatArray selected)
   | _, _ => run_lift (Raise TypeError)
   end)%run.

(** [len(a)] and [np.mean(a)] of a float array. *)
Definition float_array_len (a : nat) : Run heap Z :=
  (o <- load a ;;
   match o with
   | FloatArray ms => run_ret (Z.of_nat (length ms))
   | _ => run_lift (Raise TypeError)
   end)%run.

Definition np_mean_of (a : nat) : Run heap F :=
  (o <- load a ;;
   match o with
   | FloatArray ms => run_ret (np_mean ms)
   | _ => run_lift (Raise TypeError)
   end)%run.

(** [l.append(x)]. *)
Definition append_int (l : nat) (x : Z) : Run heap unit :=
  (o <- load l ;;
   match o with
   | IntList xs => store l (IntList (xs ++ [x]))
   | _ => run_lift (Raise TypeError)
   end)%run.

Definition append_float (l : nat) (x : F) : Run heap unit :=
  (o <- load l ;;
   match o with
   | FloatList xs => store l (FloatList (xs ++ [x]))
   | _ => run_lift (Raise TypeError)
   end)%run.

(** [np.array(l)]. *)
Definition np_array_of_ints (l : nat) : Run heap nat :=
  (o <- load l ;;
   match o with
   | IntList xs => alloc (IntArray xs)
   | _ => run_lift (Raise TypeError)
   end)%run.

Definition np_array_of_floats (l : nat) : Run heap nat :=
  (o <- load l ;;
   match o with
   | FloatList xs => alloc (FloatArray xs)
   | _ => run_lift (Raise TypeError)
   end)%run.

(** The body of the loop. *)
Definition year_body (years magnitudes : nat)
    (frequency_per_year avg_magnitude_per_year : nat) (year : Z)
  : Run heap unit :=
  (year_mask <- np_eq_scalar years year ;;
   year_magnitudes <- np_bool_index magnitudes year_mask ;;
   frequency <- float_array_len year_magnitudes ;;
   avg_magnitude <- np_mean_of year_magnitudes ;;
   append_int frequency_per_year frequency ;;
   append_float avg_magnitude_per_year avg_magnitude)%run.

(** [for year in unique_years]: the elements of the array, from index
    [i] on, [remaining] of them. *)
Fixpoint for_year_in (unique_years : nat) (body : Z -> Run heap unit)
    (remaining i : nat) : Run heap unit :=
  match remaining with
  | O => run_ret tt
  | S remaining' =>
      (year <- int_array_item unique_years i ;;
       body year ;;
       for_year_in unique_years body remaining' (S i))%run
  end.

Definition analyze_earthquakes_by_year (years magnitudes : nat)
  : Run heap (nat * nat * nat) :=
  (unique_years <- np_unique years ;;
   frequency_per_year <- alloc (IntList []) ;;
   avg_magnitude_per_year <- alloc (FloatList []) ;;
   n <- int_array_len unique_years ;;
   for_year_in unique_years
     (year_body years magnitudes frequency_per_year avg_magnitude_per_year)
     n 0%nat ;;
   frequency <- np_array_of_ints frequency_per_year ;;
   avg <- np_array_of_floats avg_magnitude_per_year ;;
   run_ret (unique_years, frequency, avg))%run.

(** The heap during the loop: what was there before the call, then the
    array of the unique years, the two lists, and the arrays of the
    iterations so far. *)
Definition during (h : heap) (us fs : list Z) (avs : list F) (temps : heap)
  : heap :=
  h ++ IntArray us :: IntList fs :: FloatList avs :: temps.

(** What the three returned addresses hold. *)
Definition contents (h : heap) (r : nat * nat * nat)
  : option (list Z * list Z * list F) :=
  let '(unique_years, frequency, avg) := r in
  match nth_error h unique_years, nth_error h frequency, nth_error h avg with
  | Some (IntArray us), Some (IntArray fs), Some (FloatArray avs) =>
      Some (us, fs, avs)
  | _, _, _ => None
  end.

End WithMean.
End Stateful.

(* ================================================================= *)
(** * Properties of the NumPy operations *)

Section SortUnique.

Lemma insert_In (x z : Z) (l : list Z) :
  In z (np.sort_insert x l) <-> z = x \/ In z l.
Proof.
  induction l as [|y tl IH]; simpl.
  - intuition.
  - destruct (x <=? y); simpl; rewrite ?IH; intuition.
Qed.

Lemma sort_In (z : Z) (l : list Z) : In z (np.sort l) <-> In z l.
Proof.
  induction l as [|x tl IH]; simpl; [tauto|].
  rewrite insert_In, IH. intuition.
Qed.

Lemma insert_sorted (x : Z) (l : list Z) :
  StronglySorted Z.le l -> StronglySorted Z.le (np.sort_insert x l).
Proof.
  induction 1 as [|y tl Hs IH Hall]; simpl.
  - constructor; constructor.
  - destruct (x <=? y) eqn:E.
    + apply Z.leb_le in E. constructor.
      * constructor; assumption.
      * constructor; [assumption|].
        eapply Forall_impl; [|exact Hall]. intros; lia.
    + apply Z.leb_gt in E. constructor; [assumption|].
      apply Forall_forall. intros z Hz. apply insert_In in Hz.
      destruct Hz as [->|Hz]; [lia|].
      rewrite Forall_forall in Hall. auto.
Qed.

Lemma sort_sorted (l : list Z) : StronglySorted Z.le (np.sort l).
Proof.
  induction l; simpl; [constructor | now apply insert_sorted].
Qed.

Lemma uniq_from_cons (prev y : Z) (tl : list Z) :
  uniq_from prev (y :: tl) =
  if y =? prev then uniq_from y tl else y :: uniq_from y tl.
Proof. unfold uniq_from; simpl. now destruct (y =? prev). Qed.

Lemma unique_unfold (ar : list Z) :
  np.unique ar =
  match np.sort ar with
  | [] => []
  | x :: tl => x :: uniq_from x tl
  end.
Proof. unfold np.unique. now destruct (np.sort ar). Qed.

Lemma uniq_from_spec (l : list Z) : forall prev,
  StronglySorted Z.le (prev :: l) ->
  StronglySorted Z.lt (prev :: uniq_from prev l) /\
  (forall z, In z (prev :: uniq_from prev l) <-> In z (prev :: l)).
Proof.
  induction l as [|y tl IH]; intros prev Hs.
  - split; [repeat constructor | tauto].
  - inversion Hs as [|? ? Hs' Hall]; subst.
    destruct (IH y Hs') as [IHs IHin].
    rewrite uniq_from_cons.
    destruct (y =? prev) eqn:E.
    + apply Z.eqb_eq in E; subst y. split; [exact IHs|].
      intro z. rewrite IHin. simpl. tauto.
    + apply Z.eqb_neq in E.
      assert (Hlt : prev < y) by (inversion Hall; subst; lia).
      split.
      * constructor; [exact IHs|].
        apply Forall_forall. intros z Hz.
        apply IHin in Hz. destruct Hz as [<-|Hz]; [exact Hlt|].
        inversion Hs' as [|? ? _ Hall']; subst.
        rewrite Forall_forall in Hall'. specialize (Hall' z Hz). lia.
      * intro z. specialize (IHin z). simpl in *. tauto.
Qed.

Lemma unique_sorted (ar : list Z) : StronglySorted Z.lt (np.unique ar).
Proof.
  rewrite unique_unfold. pose proof (sort_sorted ar) as Hs.
  destruct (np.sort ar) as [|x tl]; [constructor|].
  now apply uniq_from_spec.
Qed.

Lemma unique_In (z : Z) (ar : list Z) : In z (np.unique ar) <-> In z ar.
Proof.
  rewrite <- (sort_In z ar), unique_unfold.
  pose proof (sort_sorted ar) as Hs.
  destruct (np.sort ar) as [|x tl]; [tauto|].
  now apply uniq_from_spec.
Qed.

Lemma sorted_lt_NoDup (l : list Z) : StronglySorted Z.lt l -> NoDup l.
Proof.
  induction 1 as [|x tl Hs IH Hall]; constructor; [|exact IH].
  intro Hin. rewrite Forall_forall in Hall. specialize (Hall x Hin). lia.
Qed.

Lemma unique_NoDup (ar : list Z) : NoDup (np.unique ar).
Proof. apply sorted_lt_NoDup, unique_sorted. Qed.

Lemma unique_length (ar : list Z) :
  length (np.unique ar) = distinct_count ar.
Proof.
  unfold distinct_count. apply Permutation_length, NoDup_Permutation.
  - apply unique_NoDup.
  - apply NoDup_nodup.
  - intro z. rewrite unique_In, nodup_In. tauto.
Qed.

End SortUnique.

Section MaskIndexing.



Lemma select_length {A : Type} (year : Z) (years : list Z) :
  forall a : list A,
  length a = length years ->
  length (np.take_where a (np.eq_scalar years year)) =
  length (filter (fun y => y =? year) years).
Proof.
  induction years as [|y tl IH]; intros [|x xs] Hlen;
    simpl in Hlen; try discriminate; [reflexivity|].
  injection Hlen as Hlen. simpl.
  destruct (y =? year); simpl; now rewrite (IH xs Hlen).
Qed.


Lemma bool_index_ok {A : Type} (a : list A) (mask : list bool) :
  length a = length mask ->
  np.bool_index a mask = Ok (np.take_where a mask).
Proof.
  intro H. unfold np.bool_index. now rewrite H, Nat.eqb_refl.
Qed.

Lemma bool_index_mismatch {A : Type} (a : list A) (mask : list bool) :
  length a <> length mask ->
  np.bool_index a mask = Raise IndexError.
Proof.
  intro H. unfold np.bool_index.
  now destruct (Nat.eqb_spec (length a) (length mask)).
Qed.

End MaskIndexing.

(* ================================================================= *)
(** * The aggregator *)

Section Aggregator.

Variables (years : list Z) (magnitudes : list float64).

(** The count and the mean the loop computes for one year. *)
Let frequency_of (year : Z) : Z :=
  Z.of_nat (length (np.take_where magnitudes (np.eq_scalar years year))).
Let average_of (year : Z) : float64 :=
  np.mean (np.take_where magnitudes (np.eq_scalar years year)).

Lemma year_loop_ok :
  length magnitudes = length years ->
  forall unique_years frequency avg,
  year_loop years magnitudes unique_years (frequency, avg) =
  Ok (frequency ++ map frequency_of unique_years,
      avg ++ map average_of unique_years).
Proof.
  intros Hlen us. induction us as [|u tl IH]; intros f a; simpl.
  - now rewrite !app_nil_r.
  - rewrite bool_index_ok
      by (unfold np.eq_scalar; now rewrite length_map).
    simpl. rewrite IH, <- !app_assoc. reflexivity.
Qed.

Lemma year_loop_mismatch :
  length magnitudes <> length years ->
  forall unique_years acc,
  unique_years <> [] ->
  year_loop years magnitudes unique_years acc = Raise IndexError.
Proof.
  intros Hlen [|u tl] [f a] Hne; [congruence|]. simpl.
  rewrite bool_index_mismatch
    by (unfold np.eq_scalar; now rewrite length_map).
  reflexivity.
Qed.

Lemma analyze_ok :
  length magnitudes = length years ->
  analyze_earthquakes_by_year years magnitudes =
  Ok (np.unique years,
      map frequency_of (np.unique years),
      map average_of (np.unique years)).
Proof.
  intro Hlen. unfold analyze_earthquakes_by_year.
  now rewrite year_loop_ok.
Qed.

(** Whenever the aggregator returns, it returns these three arrays. *)
Lemma analyze_returns (r : list Z * list Z * list float64) :
  analyze_earthquakes_by_year years magnitudes = Ok r ->
  r = (np.unique years,
       map frequency_of (np.unique years),
       map average_of (np.unique years)).
Proof.
  destruct (Nat.eq_dec (length magnitudes) (length years)) as [Hlen|Hlen].
  - rewrite (analyze_ok Hlen). congruence.
  - unfold analyze_earthquakes_by_year.
    destruct (np.unique years) as [|u tl] eqn:Eu.
    + simpl. congruence.
    + rewrite year_loop_mismatch by (assumption || discriminate).
      discriminate.
Qed.

(** It returns only on equal-length inputs or on an empty [years]. *)
Lemma analyze_returns_input (r : list Z * list Z * list float64) :
  analyze_earthquakes_by_year years magnitudes = Ok r ->
  length magnitudes = length years \/ years = [].
Proof.
  destruct (Nat.eq_dec (length magnitudes) (length years)) as [Hlen|Hlen];
    [intros _; now left|].
  intro Hret. right. unfold analyze_earthquakes_by_year in Hret.
  destruct (np.unique years) as [|u us] eqn:Eu.
  - destruct years as [|y tl]; [reflexivity|]. exfalso.
    assert (Hin : In y (np.unique (y :: tl))) by (apply unique_In; now left).
    rewrite Eu in Hin. exact Hin.
  - rewrite year_loop_mismatch in Hret by (assumption || discriminate).
    discriminate.
Qed.

End Aggregator.

Section Counting.

Lemma sum_shift (l : list Z) (a : Z) :
  fold_left Z.add l a = a + np.sum l.
Proof.
  unfold np.sum. revert a.
  induction l as [|x tl IH]; intro a; simpl; [lia|].
  rewrite (IH (a + x)), (IH x). lia.
Qed.

Lemma sum_cons (x : Z) (l : list Z) : np.sum (x :: l) = x + np.sum l.
Proof. unfold np.sum at 1. simpl. apply sum_shift. Qed.

Lemma filter_other (u v : Z) (l : list Z) :
  u <> v ->
  filter (fun y => y =? v) (filter (fun y => negb (y =? u)) l) =
  filter (fun y => y =? v) l.
Proof.
  intro Hne. induction l as [|y tl IH]; simpl; [reflexivity|].
  destruct (Z.eqb_spec y u) as [->|Hyu]; simpl.
  - destruct (Z.eqb_spec u v); [contradiction | exact IH].
  - destruct (y =? v); now rewrite IH.
Qed.

(** Every element of [l] is counted under exactly one of the keys [us]. *)
Lemma count_partition (us : list Z) :
  NoDup us ->
  forall l : list Z,
  (forall x, In x l -> In x us) ->
  np.sum (map (fun u => Z.of_nat (length (filter (fun y => y =? u) l))) us)
  = Z.of_nat (length l).
Proof.
  induction 1 as [|u tl Hnotin Hnd IH]; intros l Hsub.
  - destruct l as [|x ?]; [reflexivity|]. destruct (Hsub x); now left.
  - cbn [map]. rewrite sum_cons.
    rewrite <- (filter_length (fun y => y =? u) l), Nat2Z.inj_add.
    f_equal.
    rewrite <- (IH (filter (fun y => negb (y =? u)) l)).
    + f_equal. apply map_ext_in. intros v Hv.
      rewrite filter_other; [reflexivity|]. intros ->. contradiction.
    + intros x Hx. apply filter_In in Hx. destruct Hx as [Hx Hneq].
      destruct (Hsub x Hx) as [<-|Hin]; [|exact Hin].
      now rewrite Z.eqb_refl in Hneq.
Qed.

End Counting.

Section GenericAggregator.

Context {F : Type} (np_mean : list F -> F).





End GenericAggregator.

(** With the exact mean, the aggregator over any arithmetic is the
    aggregator of the sections above. *)
Lemma generic_at_exact_mean (years : list Z) (magnitudes : list float64) :
  Generic.analyze_earthquakes_by_year np.mean years magnitudes =
  analyze_earthquakes_by_year years magnitudes.
Proof.
  unfold Generic.analyze_earthquakes_by_year, analyze_earthquakes_by_year.
  assert (Hloop : forall us acc,
            Generic.year_loop np.mean years magnitudes us acc =
            year_loop years magnitudes us acc).
  { induction us as [|u tl IH]; intro acc; cbn; [reflexivity|].
    unfold Generic.year_step, year_step.
    destruct acc as [f a].
    destruct (np.bool_index magnitudes (np.eq_scalar years u));
      cbn; [apply IH | reflexivity]. }
  now rewrite Hloop.
Qed.




(** C2: for equal-length inputs, the aggregator returns as many entries as
    the input has distinct years, and the returned years are strictly
    ascending. *)
Theorem analyze_distinct_sorted (years : list Z) (magnitudes : list float64) :
  length magnitudes = length years ->
  exists unique_years frequency avg,
    analyze_earthquakes_by_year years magnitudes =
      Ok (unique_years, frequency, avg) /\
    length unique_years = distinct_count years /\
    length frequency = distinct_count years /\
    length avg = distinct_count years /\
    StronglySorted Z.lt unique_years.
Proof.
  intro Hlen. rewrite (analyze_ok _ _ Hlen).
  eexists _, _, _. split; [reflexivity|].
  rewrite !length_map, unique_length.
  repeat split. apply unique_sorted.
Qed.

Lemma analyze_distinct_sorted_witness :
  length [Fin 2; Fin 4; Fin 3] = length [2001; 2000; 2001] /\
  exists unique_years frequency avg,
    analyze_earthquakes_by_year [2001; 2000; 2001] [Fin 2; Fin 4; Fin 3] =
      Ok (unique_years, frequency, avg) /\
    length unique_years = distinct_count [2001; 2000; 2001] /\
    length frequency = distinct_count [2001; 2000; 2001] /\
    length avg = distinct_count [2001; 2000; 2001] /\
    StronglySorted Z.lt unique_years.
Proof.
  split; [reflexivity|].
  apply (analyze_distinct_sorted [2001; 2000; 2001] [Fin 2; Fin 4; Fin 3]).
  reflexivity.
Defined.

(** C3, as amended: on an empty [years] input the aggregator raises
    nothing; it returns three empty sequences. *)
Theorem analyze_empty_returns_empty (magnitudes : list float64) :
  analyze_earthquakes_by_year [] magnitudes = Ok ([], [], []).
Proof. reflexivity. Qed.

(** C3, counterexample: the call on empty inputs is not an error. *)
Lemma analyze_empty_is_not_an_error :
  analyze_earthquakes_by_year [] [] = Ok ([], [], []) /\
  ~ (exists e, analyze_earthquakes_by_year [] [] = Raise e).
Proof.
  split; [reflexivity|]. intros [e He]. discriminate He.
Qed.

(** C9: the aggregator returns on every equal-length input, and whatever
    it returns, the frequencies add up to the number of input records and
    the three returned sequences have one length. *)
Theorem analyze_counts_every_record (years : list Z)
    (magnitudes : list float64) :
  (length magnitudes = length years ->
   exists r, analyze_earthquakes_by_year years magnitudes = Ok r) /\
  (forall unique_years frequency avg,
     analyze_earthquakes_by_year years magnitudes =
       Ok (unique_years, frequency, avg) ->
     np.sum frequency = Z.of_nat (length years) /\
     length frequency = length unique_years /\
     length avg = length unique_years).
Proof.
  split.
  - intro Hlen. rewrite (analyze_ok _ _ Hlen). eauto.
  - intros us fs avs Hret. pose proof Hret as Hret'.
    apply analyze_returns in Hret.
    injection Hret as -> -> ->. rewrite !length_map. repeat split.
    destruct (analyze_returns_input _ _ _ Hret') as [Hlen| ->].
    + rewrite <- (count_partition (np.unique years) (unique_NoDup years) years)
        by (intros x Hx; now apply unique_In).
      f_equal. apply map_ext. intro u. now rewrite select_length.
    + reflexivity.
Qed.

Lemma analyze_counts_every_record_witness :
  analyze_earthquakes_by_year [2001; 2000; 2001] [Fin 2; Fin 4; Fin 3] =
    Ok ([2000; 2001], [1; 2], [Fin 4; Fin (5 # 2)]) /\
  np.sum [1; 2] = Z.of_nat (length [2001; 2000; 2001]) /\
  length [1; 2] = length [2000; 2001] /\
  length [Fin 4; Fin (5 # 2)] = length [2000; 2001].
Proof.
  split; [reflexivity|].
  apply (proj2 (analyze_counts_every_record
                  [2001; 2000; 2001] [Fin 2; Fin 4; Fin 3])).
  reflexivity.
Defined.

(* ================================================================= *)
(** * The extraction of years and magnitudes *)

Section ExtractProperties.

Variable fromtimestamp_year : Q -> result Z.

(** The conversion of one record's timestamp. *)
Let convert (earthquake : Feature) : result Z :=
  fromtimestamp_year (inject_Z (time (properties earthquake)) / 1000)%Q.

Lemma extract_loop_ok (earthquakes : list Feature) :
  forall converted years magnitudes,
  Forall2 (fun e year => convert e = Ok year) earthquakes converted ->
  extract_loop fromtimestamp_year earthquakes years magnitudes =
  Ok (years ++ converted,
      magnitudes ++ map (fun e => mag (properties e)) earthquakes).
Proof.
  induction earthquakes as [|e tl IH]; intros converted ys ms Hconv;
    inversion Hconv as [|? y ? ys' Hy Htl]; subst; cbn [extract_loop map].
  - now rewrite !app_nil_r.
  - unfold convert in Hy. rewrite Hy. cbn [rbind].
    rewrite (IH ys' _ _ Htl), <- !app_assoc. reflexivity.
Qed.

Lemma extract_loop_raises (before : list Feature) (e : Feature)
    (after : list Feature) (err : exn) :
  forall years magnitudes,
  Forall (fun b => exists year, convert b = Ok year) before ->
  convert e = Raise err ->
  extract_loop fromtimestamp_year (before ++ e :: after) years magnitudes =
  Raise err.
Proof.
  induction before as [|b tl IH]; intros ys ms Hbefore He;
    cbn [app extract_loop].
  - unfold convert in He. now rewrite He.
  - inversion Hbefore as [|? ? [y Hy] Htl]; subst.
    unfold convert in Hy. rewrite Hy. cbn [rbind]. now apply IH.
Qed.

(** Every run of the loop that returns has converted every record. *)
Lemma extract_loop_returns (earthquakes : list Feature) :
  forall years magnitudes years' magnitudes',
  extract_loop fromtimestamp_year earthquakes years magnitudes =
    Ok (years', magnitudes') ->
  exists converted,
    Forall2 (fun e year => convert e = Ok year) earthquakes converted /\
    years' = years ++ converted /\
    magnitudes' =
      magnitudes ++ map (fun e => mag (properties e)) earthquakes.
Proof.
  induction earthquakes as [|e tl IH]; intros ys ms ys' ms' Hrun;
    cbn [extract_loop] in Hrun.
  - injection Hrun as <- <-. exists []. split; [constructor|].
    now rewrite !app_nil_r.
  - destruct (fromtimestamp_year _) as [y|err] eqn:Hy; [|discriminate Hrun].
    cbn [rbind] in Hrun.
    destruct (IH _ _ _ _ Hrun) as (converted & Hconv & -> & ->).
    exists (y :: converted). split; [now constructor|].
    cbn [map]. now rewrite <- !app_assoc.
Qed.

Lemma extract_returns (data : Data) (years : list Z)
    (magnitudes : list float64) :
  extract_earthquake_data fromtimestamp_year data = Ok (years, magnitudes) ->
  Forall2 (fun e year => convert e = Ok year) (features data) years /\
  magnitudes = map (fun e => Fin (mag (properties e))) (features data).
Proof.
  unfold extract_earthquake_data. intro Hrun.
  destruct (extract_loop fromtimestamp_year (features data) [] [])
    as [[ys ms]|err] eqn:Hloop; [|discriminate Hrun].
  cbn [rbind] in Hrun. injection Hrun as <- <-.
  destruct (extract_loop_returns _ _ _ _ _ Hloop) as (converted & Hconv & -> & ->).
  cbn [app]. split; [exact Hconv|].
  unfold np_array_float. now rewrite map_map.
Qed.

(** C7, as amended: whatever extraction returns is two sequences as long
    as the record set, where position i holds the year the local-time
    conversion gives for the i-th record's timestamp divided by 1000, and
    the i-th record's magnitude; extraction returns when the conversion
    accepts every timestamp, and otherwise raises the error of the first
    record whose conversion raises. *)
Theorem extract_index_aligned (data : Data) :
  (forall years magnitudes,
     extract_earthquake_data fromtimestamp_year data =
       Ok (years, magnitudes) ->
     length years = length magnitudes /\
     length years = count_earthquakes data /\
     forall i earthquake,
       nth_error (features data) i = Some earthquake ->
       exists year,
         fromtimestamp_year
           (inject_Z (time (properties earthquake)) / 1000)%Q = Ok year /\
         nth_error years i = Some year /\
         nth_error magnitudes i = Some (Fin (mag (properties earthquake)))) /\
  ((forall earthquake,
      In earthquake (features data) ->
      exists year,
        fromtimestamp_year
          (inject_Z (time (properties earthquake)) / 1000)%Q = Ok year) ->
   exists years magnitudes,
     extract_earthquake_data fromtimestamp_year data =
       Ok (years, magnitudes)) /\
  (forall before earthquake after err,
     features data = before ++ earthquake :: after ->
     (forall b, In b before ->
        exists year,
          fromtimestamp_year
            (inject_Z (time (properties b)) / 1000)%Q = Ok year) ->
     fromtimestamp_year
       (inject_Z (time (properties earthquake)) / 1000)%Q = Raise err ->
     extract_earthquake_data fromtimestamp_year data = Raise err).
Proof.
  split; [|split].
  - intros years magnitudes Hrun.
    destruct (extract_returns data years magnitudes Hrun) as [Hconv ->].
    pose proof (Forall2_length Hconv) as Hlen.
    unfold count_earthquakes. rewrite length_map.
    split; [now symmetry|]. split; [now symmetry|].
    intros i e Hnth. rewrite nth_error_map, Hnth. cbn [option_map].
    clear Hrun Hlen. revert i Hnth.
    induction Hconv as [|e0 y0 es ys Hy _ IH]; intros [|i] Hnth;
      cbn in Hnth; try discriminate.
    + injection Hnth as <-. exists y0. repeat split. exact Hy.
    + destruct (IH i Hnth) as (year & Hyear & Hat & _).
      exists year. repeat split; assumption.
  - intro Hall. unfold extract_earthquake_data.
    assert (Hconv : exists converted,
              Forall2 (fun e year => convert e = Ok year)
                      (features data) converted).
    { induction (features data) as [|e tl IH].
      - exists []. constructor.
      - destruct (Hall e (or_introl eq_refl)) as [y Hy].
        destruct IH as [ys Hys]; [intros; apply Hall; now right|].
        exists (y :: ys). now constructor. }
    destruct Hconv as [converted Hconv].
    rewrite (extract_loop_ok _ _ _ _ Hconv). cbn [rbind]. eauto.
  - intros before e after err Hfeat Hbefore He.
    unfold extract_earthquake_data. rewrite Hfeat.
    rewrite (extract_loop_raises before e after err);
      [reflexivity | | exact He].
    apply Forall_forall. exact Hbefore.
Qed.

End ExtractProperties.

Lemma extract_index_aligned_witness :
  let years := [2000; 2000; 2001] in
  let magnitudes := [Fin 2; Fin 4; Fin 3] in
  extract_earthquake_data (fromtimestamp_year_in_zone 0) sample_data =
    Ok (years, magnitudes) /\
  length years = length magnitudes /\
  length years = count_earthquakes sample_data /\
  forall i earthquake,
    nth_error (features sample_data) i = Some earthquake ->
    exists year,
      fromtimestamp_year_in_zone 0
        (inject_Z (time (properties earthquake)) / 1000)%Q = Ok year /\
      nth_error years i = Some year /\
      nth_error magnitudes i = Some (Fin (mag (properties earthquake))).
Proof.
  intros years magnitudes. split; [reflexivity|].
  apply (proj1 (extract_index_aligned (fromtimestamp_year_in_zone 0)
                  sample_data) [2000; 2000; 2001] [Fin 2; Fin 4; Fin 3]).
  reflexivity.
Defined.

(** C7, counterexample: a record whose timestamp is the first millisecond
    of the year 10000 (UTC).  The conversion raises ValueError, and so
    does extraction: no sequences are returned. *)
Lemma extract_out_of_range_timestamp_raises :
  let data := {| features := [sample_feature 253402300800000 2] |} in
  fromtimestamp_year_in_zone 0 (inject_Z 253402300800000 / 1000)%Q =
    Raise ValueError /\
  extract_earthquake_data (fromtimestamp_year_in_zone 0) data =
    Raise ValueError /\
  ~ (exists years magnitudes,
       extract_earthquake_data (fromtimestamp_year_in_zone 0) data =
         Ok (years, magnitudes)).
Proof.
  repeat split. intros (years & magnitudes & H). discriminate H.
Qed.

(** The scenario of the specification, end to end in UTC. *)
Example extract_sample :
  extract_earthquake_data (fromtimestamp_year_in_zone 0) sample_data =
  Ok ([2000; 2000; 2001], [Fin 2; Fin 4; Fin 3]).
Proof. reflexivity. Qed.

Example analyze_sample :
  analyze_earthquakes_by_year [2000; 2000; 2001] [Fin 2; Fin 4; Fin 3] =
  Ok ([2000; 2001], [2; 1], [Fin 3; Fin 3]).
Proof. reflexivity. Qed.

(* ================================================================= *)
(** * The strongest earthquake *)

Section Maximum.

Context {A : Type} (key : A -> Q).




End Maximum.



Example get_maximum_sample :
  get_maximum sample_data = Ok (4, (54, -3))%Q.
Proof. reflexivity. Qed.

(* ================================================================= *)
(** * The loader *)

Section Loader.

Lemma log_emit (ev : Event) (evs : list Event) (w : World) :
  log ev (emit evs w) = emit (evs ++ [ev]) w.
Proof. unfold log, emit; simpl. now rewrite <- app_assoc. Qed.

Lemma log_is_emit (ev : Event) (w : World) : log ev w = emit [ev] w.
Proof. reflexivity. Qed.

(** Without the cache, [get_data] is the remote path. *)
Lemma get_data_remote (save_to_file : bool) (w : World) :
  get_data false save_to_file w = fetch_from_api save_to_file w.
Proof. reflexivity. Qed.

(** The remote path always sends the one request, whatever follows. *)
Lemma fetch_from_api_requests (save_to_file : bool) (w : World) :
  exists later,
    events (snd (fetch_from_api save_to_file w)) =
    events w ++ fetching_line :: Requested feed_url feed_params :: later.
Proof.
  unfold fetch_from_api, bind, print, print_line, requests_get_text, lift,
    ret, open_write_json_dump.
  cbn [log events feed].
  destruct (feed w) as [[d|]|e]; cbn [json_loads];
    try (exists []; cbn; now rewrite <- app_assoc).
  destruct save_to_file; cbn;
    [|exists []; now rewrite <- app_assoc].
  destruct (open_write_fault w); cbn;
    [exists []; now rewrite <- app_assoc|].
  destruct (dump_fault w); cbn;
    [exists []; now rewrite <- app_assoc|].
  exists [saved_line]. now rewrite <- !app_assoc.
Qed.

(** What the [try] block makes of a failed read. *)
Lemma get_data_read_failure_eq (save_to_file : bool) (w : World) (e : exn) :
  open_read_json_load w = (Raise e, w) ->
  get_data true save_to_file w =
    if is_FileNotFoundError e
    then fetch_from_api save_to_file (emit [cache_miss_line] w)
    else (Raise e, w).
Proof.
  intro Hread. unfold get_data, load_local, bind at 1, try_except.
  unfold bind at 1. rewrite Hread.
  destruct (is_FileNotFoundError e); reflexivity.
Qed.

End Loader.

(** C5, as amended: with the cache preferred, a read that raises
    FileNotFoundError is recovered by the remote path, after the
    cache-miss line is printed; a read that raises anything else raises it
    to the caller, and no request is sent. *)
Theorem get_data_read_failure (save_to_file : bool) (w : World) (e : exn) :
  open_read_json_load w = (Raise e, w) ->
  get_data true save_to_file w =
    if is_FileNotFoundError e
    then get_data false save_to_file (emit [cache_miss_line] w)
    else (Raise e, w).
Proof.
  intro Hread. rewrite (get_data_read_failure_eq _ _ _ Hread).
  destruct (is_FileNotFoundError e); reflexivity.
Qed.

Lemma get_data_read_failure_witness :
  open_read_json_load (world_with Absent None None) =
    (Raise FileNotFoundError, world_with Absent None None) /\
  get_data true false (world_with Absent None None) =
    get_data false false (emit [cache_miss_line] (world_with Absent None None)).
Proof.
  split; [reflexivity|].
  apply (get_data_read_failure false (world_with Absent None None)
           FileNotFoundError).
  reflexivity.
Defined.

(** C5, counterexample: the cache file exists but cannot be read, and the
    feed would answer; [get_data] raises the read error and sends no
    request. *)
Lemma get_data_unreadable_cache_raises :
  let w := world_with (Unreadable PermissionError) None None in
  open_read_json_load w = (Raise PermissionError, w) /\
  get_data true false w = (Raise PermissionError, w) /\
  fst (get_data false false w) = Ok sample_data.
Proof. repeat split. Qed.

(** The same for a cache file that is not valid JSON. *)
Example get_data_malformed_cache_raises :
  let w := world_with (Present Malformed) None None in
  get_data true false w = (Raise JSONDecodeError, w).
Proof. reflexivity. Qed.

(** C6, as amended: when the remote path is taken, the feed answers a
    record set and the write of the cache file fails, [get_data] raises
    the write error: it returns no data, and prints nothing after the
    request. *)
Theorem get_data_failed_persist_raises (use_local_file : bool) (w : World)
    (data : Data) (e : exn) :
  (use_local_file = true -> cache_file w = Absent) ->
  feed w = Ok (JsonText data) ->
  open_write_fault w = Some e \/
    (open_write_fault w = None /\ dump_fault w = Some e) ->
  exists w',
    get_data use_local_file true w = (Raise e, w') /\
    events w' =
      events w ++ (if use_local_file then [cache_miss_line] else []) ++
      [fetching_line; Requested feed_url feed_params].
Proof.
  intros Hcache Hfeed Hfault.
  assert (Hfetch : forall w0, feed w0 = Ok (JsonText data) ->
            open_write_fault w0 = open_write_fault w ->
            dump_fault w0 = dump_fault w ->
            exists w', fetch_from_api true w0 = (Raise e, w') /\
              events w' = events w0 ++
                [fetching_line; Requested feed_url feed_params]).
  { intros w0 Hf Ho Hd.
    unfold fetch_from_api, bind, print, print_line, requests_get_text, lift,
      open_write_json_dump.
    cbn [log events feed open_write_fault dump_fault cache_file].
    rewrite Hf. cbn [json_loads]. rewrite Ho, Hd.
    destruct Hfault as [-> | [-> ->]]; eexists; (split; [reflexivity|]);
      cbn; now rewrite <- app_assoc. }
  destruct use_local_file.
  - assert (Hread : open_read_json_load w = (Raise FileNotFoundError, w))
      by (unfold open_read_json_load; now rewrite (Hcache eq_refl)).
    rewrite (get_data_read_failure_eq true w FileNotFoundError Hread).
    cbn [is_FileNotFoundError].
    destruct (Hfetch (emit [cache_miss_line] w)) as (w' & Hrun & Hev);
      try reflexivity; [exact Hfeed|].
    exists w'. split; [exact Hrun|]. rewrite Hev. cbn.
    now rewrite <- app_assoc.
  - rewrite get_data_remote.
    destruct (Hfetch w Hfeed eq_refl eq_refl) as (w' & Hrun & Hev).
    exists w'. split; [exact Hrun|]. exact Hev.
Qed.

Lemma get_data_failed_persist_raises_witness :
  let w := world_with Absent (Some PermissionError) None in
  exists w',
    get_data true true w = (Raise PermissionError, w') /\
    events w' =
      events w ++ [cache_miss_line] ++
      [fetching_line; Requested feed_url feed_params].
Proof.
  apply (get_data_failed_persist_raises true
           (world_with Absent (Some PermissionError) None)
           sample_data PermissionError).
  - reflexivity.
  - reflexivity.
  - left; reflexivity.
Defined.

(** C6, counterexample: the feed answers, the cache file cannot be opened
    for writing; [get_data] raises instead of returning the data it
    fetched. *)
Lemma get_data_failed_persist_is_fatal :
  let w := world_with Absent (Some PermissionError) None in
  fst (get_data false false w) = Ok sample_data /\
  fst (get_data false true w) = Raise PermissionError /\
  events (snd (get_data false true w)) =
    [fetching_line; Requested feed_url feed_params].
Proof. repeat split. Qed.

(* ================================================================= *)
(** * The reporter *)

Section ArgFirst.

Context {A : Type} (le better : A -> A -> bool) (stop : A -> bool)
        (ok : A -> Prop).

Hypothesis better_le : forall x m, better x m = negb (le x m).
Hypothesis ok_stop : forall x, ok x -> stop x = false.
Hypothesis le_total :
  forall x y, ok x -> ok y -> le x y = true \/ le y x = true.
Hypothesis le_trans :
  forall x y z, ok x -> ok y -> ok z ->
                le x y = true -> le y z = true -> le x z = true.

Lemma le_refl_ok (x : A) : ok x -> le x x = true.
Proof. intro Hx. destruct (le_total x x Hx Hx); assumption. Qed.

(** The scan keeps the best index, or moves to a later one that holds a
    strictly better value than everything before it. *)
Lemma arg_go_spec (l : list A) : forall best bv i,
  ok bv -> Forall ok l -> (best < i)%nat ->
  exists rv,
    ok rv /\
    ((np.arg_go better stop best bv i l = best /\ rv = bv) \/
     (exists k, np.arg_go better stop best bv i l = (i + k)%nat /\
                nth_error l k = Some rv)) /\
    le bv rv = true /\
    (forall x, In x l -> le x rv = true) /\
    (forall k x, nth_error l k = Some x ->
                 (i + k < np.arg_go better stop best bv i l)%nat ->
                 le rv x = false) /\
    (np.arg_go better stop best bv i l <> best -> le rv bv = false).
Proof.
  induction l as [|x tl IH]; intros best bv i Hbv Hall Hlt;
    cbn [np.arg_go]; rewrite (ok_stop bv Hbv).
  - exists bv. split; [exact Hbv|]. split; [now left|].
    split; [now apply le_refl_ok|].
    split; [intros ? []|]. split; [|congruence].
    intros [|k] y Hy; discriminate Hy.
  - inversion Hall as [|? ? Hx Htl]; subst.
    rewrite better_le. destruct (le x bv) eqn:E; cbn [negb].
    + destruct (IH best bv (S i) Hbv Htl (Nat.lt_lt_succ_r _ _ Hlt))
        as (rv & Hrv & Hwhere & Hle & Hbelow & Hbefore & Hmoved).
      exists rv. split; [exact Hrv|]. split.
      { destruct Hwhere as [Hkeep | (k & Hk & Hnth)]; [now left|].
        right. exists (S k). split; [lia | exact Hnth]. }
      split; [exact Hle|]. split.
      { intros y [<-|Hy]; [|now apply Hbelow].
        now apply (le_trans x bv rv). }
      split; [|exact Hmoved].
      intros [|k] y Hy Hk; cbn in Hy.
      * injection Hy as <-.
        destruct (le rv x) eqn:Erx; [|reflexivity].
        rewrite <- (Hmoved ltac:(lia)). symmetry.
        now apply (le_trans rv x bv).
      * apply (Hbefore k y Hy). lia.
    + assert (Hbx : le bv x = true)
        by (destruct (le_total bv x Hbv Hx); congruence).
      destruct (IH i x (S i) Hx Htl (Nat.lt_succ_diag_r i))
        as (rv & Hrv & Hwhere & Hle & Hbelow & Hbefore & Hmoved).
      exists rv. split; [exact Hrv|]. split.
      { right. destruct Hwhere as [[Hkeep ->] | (k & Hk & Hnth)].
        - exists 0%nat. split; [lia | reflexivity].
        - exists (S k). split; [lia | exact Hnth]. }
      split; [now apply (le_trans bv x rv)|]. split.
      { intros y [<-|Hy]; [exact Hle | now apply Hbelow]. }
      split.
      { intros [|k] y Hy Hk; cbn in Hy.
        - injection Hy as <-. apply Hmoved. lia.
        - apply (Hbefore k y Hy). lia. }
      intros _. destruct (le rv bv) eqn:Erb; [|reflexivity].
      rewrite <- E. symmetry. now apply (le_trans x rv bv).
Qed.

(** [np.argmax] and its like return the first extremal index. *)
Lemma arg_first_spec (a : list A) :
  a <> [] -> Forall ok a ->
  exists i v,
    np.arg_first better stop a = Ok i /\ first_extreme le a i v.
Proof.
  destruct a as [|x tl]; [congruence|]. intros _ Hall.
  inversion Hall as [|? ? Hx Htl]; subst.
  destruct (arg_go_spec tl 0%nat x 1%nat Hx Htl Nat.lt_0_1)
    as (rv & Hrv & Hwhere & Hle & Hbelow & Hbefore & Hmoved).
  exists (np.arg_go better stop 0%nat x 1%nat tl), rv.
  split; [reflexivity|]. unfold first_extreme, attains. split; [|split].
  - destruct Hwhere as [[-> ->] | (k & -> & Hnth)]; [reflexivity|exact Hnth].
  - intros y [<-|Hy]; [exact Hle | now apply Hbelow].
  - intros [|k] y Hk Hy; cbn in Hy.
    + injection Hy as <-. apply Hmoved. lia.
    + apply (Hbefore k y Hy). lia.
Qed.

End ArgFirst.

Section ArgInstances.

Lemma argmax_first (a : list Z) :
  a <> [] ->
  exists i v, np.argmax a = Ok i /\ first_extreme Z.leb a i v.
Proof.
  intro Hne. unfold np.argmax.
  apply (arg_first_spec Z.leb _ _ (fun _ => True)); auto.
  - intros x m. apply Z.ltb_antisym.
  - intros x y _ _. destruct (Z.leb_spec x y); [now left|].
    right. apply Z.leb_le. lia.
  - intros x y z _ _ _ Hxy Hyz. apply Z.leb_le in Hxy, Hyz.
    apply Z.leb_le. lia.
  - apply Forall_forall. auto.
Qed.

Lemma argmin_first (a : list Z) :
  a <> [] ->
  exists i v, np.argmin a = Ok i /\ first_extreme Z.geb a i v.
Proof.
  intro Hne. unfold np.argmin.
  apply (arg_first_spec Z.geb _ _ (fun _ => True)); auto.
  - intros x m. rewrite Z.geb_leb. apply Z.ltb_antisym.
  - intros x y _ _. rewrite !Z.geb_leb.
    destruct (Z.leb_spec y x); [now left|].
    right. apply Z.leb_le. lia.
  - intros x y z _ _ _. rewrite !Z.geb_leb. intros Hxy Hyz.
    apply Z.leb_le in Hxy, Hyz. apply Z.leb_le. lia.
  - apply Forall_forall. auto.
Qed.

Lemma F64_leb_total (x y : float64) :
  is_finite x -> is_finite y -> F64.leb x y = true \/ F64.leb y x = true.
Proof.
  destruct x as [a|], y as [b|]; unfold is_finite; cbn;
    try discriminate. intros _ _.
  destruct (Qlt_le_dec a b) as [H|H].
  - left. now apply Qle_bool_iff, Qlt_le_weak.
  - right. now apply Qle_bool_iff.
Qed.

Lemma F64_leb_trans (x y z : float64) :
  F64.leb x y = true -> F64.leb y z = true -> F64.leb x z = true.
Proof.
  destruct x as [a|], y as [b|], z as [c|]; cbn; try discriminate.
  rewrite !Qle_bool_iff. apply Qle_trans.
Qed.

Lemma fargmax_first (a : list float64) :
  a <> [] -> Forall is_finite a ->
  exists i v, np.fargmax a = Ok i /\ first_extreme F64.leb a i v.
Proof.
  intros Hne Hfin. unfold np.fargmax.
  apply (arg_first_spec F64.leb _ _ is_finite); auto.
  - apply F64_leb_total.
  - intros x y z _ _ _. apply F64_leb_trans.
Qed.

Lemma fargmin_first (a : list float64) :
  a <> [] -> Forall is_finite a ->
  exists i v, np.fargmin a = Ok i /\ first_extreme F64.geb a i v.
Proof.
  intros Hne Hfin. unfold np.fargmin.
  apply (arg_first_spec F64.geb _ _ is_finite); auto.
  - intros x y Hx Hy. unfold F64.geb.
    destruct (F64_leb_total x y Hx Hy); tauto.
  - intros x y z _ _ _ Hxy Hyz. unfold F64.geb in *.
    exact (F64_leb_trans z y x Hyz Hxy).
Qed.

Lemma sorted_nth_lt (l : list Z) :
  StronglySorted Z.lt l ->
  forall i j a b,
  (i < j)%nat -> nth_error l i = Some a -> nth_error l j = Some b -> a < b.
Proof.
  induction 1 as [|x tl Hs IH Hall]; intros i j a b Hij Ha Hb.
  - destruct i; discriminate Ha.
  - destruct j as [|j]; [lia|]. cbn in Hb. destruct i as [|i]; cbn in Ha.
    + injection Ha as <-. rewrite Forall_forall in Hall.
      apply Hall. eapply nth_error_In, Hb.
    + apply (IH i j); [lia | assumption | assumption].
Qed.

(** With the years in ascending order, the first extremal index is the
    earliest extremal year. *)
Lemma earliest_of_first {A : Type} (le : A -> A -> bool)
    (years : list Z) (vals : list A) (i : nat) (v : A) :
  StronglySorted Z.lt years ->
  length vals = length years ->
  first_extreme le vals i v ->
  exists year,
    nth_error years i = Some year /\
    earliest_year_attaining le years vals year v.
Proof.
  intros Hsorted Hlen (Hnth & Hatt & Hbefore).
  assert (Hi : (i < length years)%nat)
    by (rewrite <- Hlen; apply nth_error_Some; congruence).
  destruct (nth_error years i) as [year|] eqn:Ey;
    [|apply nth_error_None in Ey; lia].
  exists year. split; [reflexivity|].
  exists i. repeat split; try assumption.
  intros j yj vj Hji Hyj Hvj Hattj.
  destruct (Nat.lt_trichotomy j i) as [Hlt | [Heq | Hgt]].
  - specialize (Hbefore j vj Hlt Hvj).
    rewrite (Hattj v (nth_error_In _ _ Hnth)) in Hbefore. discriminate.
  - contradiction.
  - exact (sorted_nth_lt years Hsorted i j year yj Hgt Ey Hyj).
Qed.

Lemma item_of_nth {A : Type} (a : list A) (i : nat) (x : A) :
  nth_error a i = Some x -> np.item a i = Ok x.
Proof. unfold np.item. now intros ->. Qed.

Lemma last_item_last (a : list Z) :
  a <> [] -> np.last_item a = Ok (last a 0).
Proof.
  intro Hne. destruct (exists_last Hne) as (front & x & ->).
  unfold np.last_item. now rewrite rev_unit, last_last.
Qed.

End ArgInstances.

(** C4: on years in ascending order with their counts and finite average
    magnitudes, the summary names, for the most and the fewest earthquakes
    and for the highest and the lowest average magnitude, the year that
    holds the extreme; every other year that holds the same extreme is a
    later year. *)
Theorem summary_ties_select_earliest_year (years frequency : list Z)
    (avg_magnitude : list float64) (w : World) :
  StronglySorted Z.lt years ->
  years <> [] ->
  length frequency = length years ->
  length avg_magnitude = length years ->
  Forall is_finite avg_magnitude ->
  exists most_year most_count fewest_year fewest_count
         highest_year highest_avg lowest_year lowest_avg,
    print_summary_statistics years frequency avg_magnitude w =
      (Ok tt,
       emit (summary_report years frequency avg_magnitude
               most_year most_count fewest_year fewest_count
               highest_year highest_avg lowest_year lowest_avg) w) /\
    earliest_year_attaining Z.leb years frequency most_year most_count /\
    earliest_year_attaining Z.geb years frequency fewest_year fewest_count /\
    earliest_year_attaining F64.leb years avg_magnitude
      highest_year highest_avg /\
    earliest_year_attaining F64.geb years avg_magnitude
      lowest_year lowest_avg.
Proof.
  intros Hsorted Hne Hlf Hla Hfin.
  assert (Hf : frequency <> [])
    by (destruct frequency, years; try discriminate; congruence).
  assert (Ha : avg_magnitude <> [])
    by (destruct avg_magnitude, years; try discriminate; congruence).
  destruct (argmax_first frequency Hf) as (i1 & v1 & Hi1 & Hx1).
  destruct (argmin_first frequency Hf) as (i2 & v2 & Hi2 & Hx2).
  destruct (fargmax_first avg_magnitude Ha Hfin) as (i3 & v3 & Hi3 & Hx3).
  destruct (fargmin_first avg_magnitude Ha Hfin) as (i4 & v4 & Hi4 & Hx4).
  destruct (earliest_of_first _ _ _ _ _ Hsorted Hlf Hx1) as (y1 & Hy1 & He1).
  destruct (earliest_of_first _ _ _ _ _ Hsorted Hlf Hx2) as (y2 & Hy2 & He2).
  destruct (earliest_of_first _ _ _ _ _ Hsorted Hla Hx3) as (y3 & Hy3 & He3).
  destruct (earliest_of_first _ _ _ _ _ Hsorted Hla Hx4) as (y4 & Hy4 & He4).
  exists y1, v1, y2, v2, y3, v3, y4, v4.
  split; [|repeat split; assumption].
  unfold print_summary_statistics, bind, print, print_line, lift.
  unfold np.max, np.min, np.fmax, np.fmin.
  rewrite Hi1, Hi2, Hi3, Hi4. cbn [rbind].
  rewrite (item_of_nth _ _ _ Hy1), (item_of_nth _ _ _ Hy2),
    (item_of_nth _ _ _ Hy3), (item_of_nth _ _ _ Hy4).
  rewrite (item_of_nth _ _ _ (proj1 Hx1)), (item_of_nth _ _ _ (proj1 Hx2)),
    (item_of_nth _ _ _ (proj1 Hx3)), (item_of_nth _ _ _ (proj1 Hx4)).
  rewrite (last_item_last years Hne).
  destruct years as [|y0 ys]; [congruence|].
  cbn [np.item nth_error hd].
  rewrite (log_is_emit _ w), !log_emit. cbn [app]. reflexivity.
Qed.

Lemma summary_ties_select_earliest_year_witness :
  let years := [2000; 2001; 2002] in
  let frequency := [2; 2; 1] in
  let avg_magnitude := [Fin 3; Fin (7 # 2); Fin (7 # 2)] in
  let w := world_with Absent None None in
  exists most_year most_count fewest_year fewest_count
         highest_year highest_avg lowest_year lowest_avg,
    print_summary_statistics years frequency avg_magnitude w =
      (Ok tt,
       emit (summary_report years frequency avg_magnitude
               most_year most_count fewest_year fewest_count
               highest_year highest_avg lowest_year lowest_avg) w) /\
    earliest_year_attaining Z.leb years frequency most_year most_count /\
    earliest_year_attaining Z.geb years frequency fewest_year fewest_count /\
    earliest_year_attaining F64.leb years avg_magnitude
      highest_year highest_avg /\
    earliest_year_attaining F64.geb years avg_magnitude
      lowest_year lowest_avg.
Proof.
  apply (summary_ties_select_earliest_year
           [2000; 2001; 2002] [2; 2; 1] [Fin 3; Fin (7 # 2); Fin (7 # 2)]
           (world_with Absent None None)).
  - repeat constructor; lia.
  - discriminate.
  - reflexivity.
  - reflexivity.
  - repeat constructor.
Defined.

(** Years 2000 and 2001 share the maximum count, years 2001 and 2002 the
    maximum average: the summary names 2000 and 2001. *)
Example summary_tie_sample :
  events (snd (print_summary_statistics
                 [2000; 2001; 2002] [2; 2; 1]
                 [Fin 3; Fin (7 # 2); Fin (7 # 2)]
                 (world_with Absent None None))) =
  summary_report [2000; 2001; 2002] [2; 2; 1]
    [Fin 3; Fin (7 # 2); Fin (7 # 2)]
    2000 2 2002 1 2001 (Fin (7 # 2)) 2000 (Fin 3).
Proof. reflexivity. Qed.

(** On an empty aggregate sequence the summary stops at its fourth line
    with IndexError. *)
Example summary_empty_raises :
  fst (print_summary_statistics [] [] [] (world_with Absent None None)) =
  Raise IndexError.
Proof. reflexivity. Qed.

(* ================================================================= *)
(** * From the aggregator to the reporter *)

Section AggregateSequences.

Lemma select_finite (a : list float64) : forall mask,
  Forall is_finite a -> Forall is_finite (np.take_where a mask).
Proof.
  induction a as [|x tl IH]; intros [|b mask] Hfin; cbn; try constructor.
  inversion Hfin; subst. destruct b; [constructor|]; auto.
Qed.

Lemma fsum_finite (a : list float64) : forall acc,
  Forall is_finite a -> is_finite (fold_left F64.add a (Fin acc)).
Proof.
  induction a as [|x tl IH]; intros acc Hfin; cbn; [reflexivity|].
  inversion Hfin as [|? ? Hx Htl]; subst.
  destruct x as [q|]; [|discriminate Hx]. cbn. now apply IH.
Qed.

Lemma mean_finite (a : list float64) :
  a <> [] -> Forall is_finite a -> is_finite (np.mean a).
Proof.
  intros Hne Hfin. unfold np.mean, np.fsum.
  pose proof (fsum_finite a 0%Q Hfin) as Hs.
  destruct (fold_left F64.add a (Fin 0)) as [s|]; [|discriminate Hs].
  destruct a; [congruence | reflexivity].
Qed.

(** What the aggregator returns on finite magnitudes is a sequence the
    reporter's tie-break applies to: ascending years, one count and one
    finite average per year. *)
Lemma analyze_output_reportable (years : list Z)
    (magnitudes : list float64) unique_years frequency avg :
  length magnitudes = length years ->
  Forall is_finite magnitudes ->
  analyze_earthquakes_by_year years magnitudes =
    Ok (unique_years, frequency, avg) ->
  StronglySorted Z.lt unique_years /\
  length frequency = length unique_years /\
  length avg = length unique_years /\
  Forall is_finite avg.
Proof.
  intros Hlen Hfin Hret. rewrite (analyze_ok _ _ Hlen) in Hret.
  injection Hret as <- <- <-. rewrite !length_map.
  split; [apply unique_sorted|]. split; [reflexivity|].
  split; [reflexivity|].
  apply Forall_forall. intros x Hx. apply in_map_iff in Hx.
  destruct Hx as (year & <- & Hyear).
  apply mean_finite; [|now apply select_finite].
  apply (proj1 (unique_In year years)) in Hyear.
  intro Hnil.
  pose proof (select_length year years magnitudes Hlen) as Hcount.
  rewrite Hnil in Hcount.
  assert (Hin : In year (filter (fun y => y =? year) years))
    by (apply filter_In; split; [exact Hyear | apply Z.eqb_refl]).
  destruct (filter _ years); [contradiction | discriminate].
Qed.

End AggregateSequences.

(* ================================================================= *)
(** * More on the loader *)

Section LoaderSteps.

(** The remote path, outcome by outcome. *)
Lemma fetch_feed_fails (save_to_file : bool) (w : World) (e : exn) :
  feed_fails w e ->
  fetch_from_api save_to_file w =
    (Raise e, emit [fetching_line; request_event] w).
Proof.
  intro Hfeed.
  unfold fetch_from_api, bind, print, print_line, requests_get_text, lift.
  cbn [log feed]. rewrite (log_is_emit _ w), log_emit. cbn [app].
  destruct Hfeed as [-> | [-> ->]]; reflexivity.
Qed.

Lemma fetch_no_save (w : World) (data : Data) :
  feed w = Ok (JsonText data) ->
  fetch_from_api false w =
    (Ok data, emit [fetching_line; request_event] w).
Proof.
  intro Hfeed.
  unfold fetch_from_api, bind, print, print_line, requests_get_text, lift, ret.
  cbn [log feed]. rewrite (log_is_emit _ w), log_emit. cbn [app].
  rewrite Hfeed. reflexivity.
Qed.

Lemma fetch_saved (w : World) (data : Data) :
  feed w = Ok (JsonText data) ->
  writable w ->
  fetch_from_api true w =
    (Ok data,
     emit [fetching_line; request_event; saved_line]
       (set_cache_file (Present (JsonText data)) w)).
Proof.
  intros Hfeed [Hopen Hdump].
  unfold fetch_from_api, bind, print, print_line, requests_get_text, lift,
    ret, open_write_json_dump.
  cbn [log feed open_write_fault dump_fault]. rewrite Hfeed, Hopen, Hdump.
  cbn [json_loads]. unfold log, emit, set_cache_file.
  cbn [events cache_file open_write_fault dump_fault feed].
  rewrite <- !app_assoc. reflexivity.
Qed.

Lemma fetch_open_fails (w : World) (data : Data) (e : exn) :
  feed w = Ok (JsonText data) ->
  open_write_fault w = Some e ->
  fetch_from_api true w =
    (Raise e, emit [fetching_line; request_event] w).
Proof.
  intros Hfeed Hopen.
  unfold fetch_from_api, bind, print, print_line, requests_get_text, lift,
    ret, open_write_json_dump.
  cbn [log feed open_write_fault dump_fault]. rewrite Hfeed, Hopen.
  cbn [json_loads]. unfold log, emit.
  cbn [events cache_file open_write_fault dump_fault feed].
  rewrite <- !app_assoc. reflexivity.
Qed.

Lemma fetch_dump_fails (w : World) (data : Data) (e : exn) :
  feed w = Ok (JsonText data) ->
  open_write_fault w = None ->
  dump_fault w = Some e ->
  fetch_from_api true w =
    (Raise e,
     emit [fetching_line; request_event]
       (set_cache_file (Present Malformed) w)).
Proof.
  intros Hfeed Hopen Hdump.
  unfold fetch_from_api, bind, print, print_line, requests_get_text, lift,
    ret, open_write_json_dump.
  cbn [log feed open_write_fault dump_fault]. rewrite Hfeed, Hopen, Hdump.
  cbn [json_loads]. unfold log, emit, set_cache_file.
  cbn [events cache_file open_write_fault dump_fault feed].
  rewrite <- !app_assoc. reflexivity.
Qed.

Lemma load_local_hit (w : World) (data : Data) :
  cache_file w = Present (JsonText data) ->
  load_local true w = (Ok (Some data), emit [loaded_local_line] w).
Proof.
  intro Hfile.
  unfold load_local, try_except, bind, open_read_json_load, print,
    print_line, ret.
  rewrite Hfile. reflexivity.
Qed.

Lemma load_local_absent (w : World) :
  cache_file w = Absent ->
  load_local true w = (Ok None, emit [cache_miss_line] w).
Proof.
  intro Hfile.
  unfold load_local, try_except, bind, open_read_json_load, print,
    print_line, ret.
  rewrite Hfile. reflexivity.
Qed.

Lemma emit_emit (pre evs : list Event) (w : World) :
  emit evs (emit pre w) = emit (pre ++ evs) w.
Proof. unfold emit; cbn. now rewrite app_assoc. Qed.

Lemma emit_set_cache_file (pre evs : list Event) (st : FileState)
    (w : World) :
  emit evs (set_cache_file st (emit pre w)) =
  emit (pre ++ evs) (set_cache_file st w).
Proof. unfold emit, set_cache_file; cbn. now rewrite app_assoc. Qed.

(** The remote path is one of four runs. *)
Lemma fetch_cases (save_to_file : bool) (w : World) :
  (exists e, fetch_from_api save_to_file w =
     (Raise e, emit [fetching_line; request_event] w)) \/
  (exists data, save_to_file = false /\
     fetch_from_api save_to_file w =
     (Ok data, emit [fetching_line; request_event] w)) \/
  (exists e, save_to_file = true /\
     fetch_from_api save_to_file w =
     (Raise e, emit [fetching_line; request_event]
                 (set_cache_file (Present Malformed) w))) \/
  (exists data, save_to_file = true /\
     fetch_from_api save_to_file w =
     (Ok data, emit [fetching_line; request_event; saved_line]
                 (set_cache_file (Present (JsonText data)) w))).
Proof.
  destruct (feed w) as [[data|]|e] eqn:Hfeed.
  - destruct save_to_file.
    + destruct (open_write_fault w) as [e|] eqn:Hopen.
      * left. exists e. now apply (fetch_open_fails _ data).
      * destruct (dump_fault w) as [e|] eqn:Hdump.
        -- right; right; left. exists e. split; [reflexivity|].
           now apply (fetch_dump_fails _ data).
        -- right; right; right. exists data. split; [reflexivity|].
           apply fetch_saved; [assumption | now split].
    + right; left. exists data. split; [reflexivity|].
      now apply fetch_no_save.
  - left. exists JSONDecodeError. apply fetch_feed_fails. now right.
  - left. exists e. apply fetch_feed_fails. now left.
Qed.

(** Whatever the flags and the world, [get_data] is one of six runs. *)
Lemma get_data_cases (use_local_file save_to_file : bool) (w : World) :
  let miss := if use_local_file then [cache_miss_line] else [] in
  (exists data,
     cache_file w = Present (JsonText data) /\
     get_data use_local_file save_to_file w =
       (Ok data, emit [loaded_local_line] w)) \/
  (exists e,
     get_data use_local_file save_to_file w = (Raise e, w)) \/
  (exists e,
     get_data use_local_file save_to_file w =
       (Raise e, emit (miss ++ [fetching_line; request_event]) w)) \/
  (exists data,
     save_to_file = false /\
     get_data use_local_file save_to_file w =
       (Ok data, emit (miss ++ [fetching_line; request_event]) w)) \/
  (exists e,
     save_to_file = true /\
     get_data use_local_file save_to_file w =
       (Raise e, emit (miss ++ [fetching_line; request_event])
                   (set_cache_file (Present Malformed) w))) \/
  (exists data,
     save_to_file = true /\
     get_data use_local_file save_to_file w =
       (Ok data, emit (miss ++ [fetching_line; request_event; saved_line])
                   (set_cache_file (Present (JsonText data)) w))).
Proof.
  intro miss.
  assert (Hmiss : forall w0,
            w0 = emit [cache_miss_line] w ->
            (exists e, fetch_from_api save_to_file w0 =
               (Raise e,
                emit ([cache_miss_line] ++ [fetching_line; request_event]) w))
            \/
            (exists data, save_to_file = false /\
               fetch_from_api save_to_file w0 =
               (Ok data,
                emit ([cache_miss_line] ++ [fetching_line; request_event]) w))
            \/
            (exists e, save_to_file = true /\
               fetch_from_api save_to_file w0 =
               (Raise e,
                emit ([cache_miss_line] ++ [fetching_line; request_event])
                  (set_cache_file (Present Malformed) w))) \/
            (exists data, save_to_file = true /\
               fetch_from_api save_to_file w0 =
               (Ok data,
                emit ([cache_miss_line] ++
                      [fetching_line; request_event; saved_line])
                  (set_cache_file (Present (JsonText data)) w)))).
  { intros w0 ->.
    destruct (fetch_cases save_to_file (emit [cache_miss_line] w))
      as [[e H] | [[d [Hs H]] | [[e [Hs H]] | [d [Hs H]]]]];
      rewrite ?emit_set_cache_file, ?emit_emit in H.
    - left. now exists e.
    - right; left. now exists d.
    - right; right; left. now exists e.
    - right; right; right. now exists d. }
  destruct use_local_file; subst miss.
  - destruct (cache_file w) as [|e|[data|]] eqn:Hfile.
    + right; right.
      unfold get_data, bind. rewrite (load_local_absent w Hfile).
      now apply Hmiss.
    + assert (Hread : open_read_json_load w = (Raise e, w))
        by (unfold open_read_json_load; now rewrite Hfile).
      rewrite (get_data_read_failure_eq save_to_file w e Hread).
      destruct (is_FileNotFoundError e).
      * right; right. now apply Hmiss.
      * right; left. now exists e.
    + left. exists data. split; [reflexivity|].
      unfold get_data, bind. now rewrite (load_local_hit w data Hfile).
    + right; left. exists JSONDecodeError.
      assert (Hread : open_read_json_load w = (Raise JSONDecodeError, w))
        by (unfold open_read_json_load; now rewrite Hfile).
      now rewrite (get_data_read_failure_eq save_to_file w _ Hread).
  - right; right. rewrite get_data_remote. cbn [app]. apply fetch_cases.
Qed.

End LoaderSteps.

Section LoaderProperties.

(** When the cache is not asked for or the file is absent, [get_data] is
    the remote path run after the cache-miss line, if any. *)
Lemma get_data_takes_remote_path (use_local_file save_to_file : bool)
    (w : World) :
  (use_local_file = true -> cache_file w = Absent) ->
  exists w0,
    get_data use_local_file save_to_file w =
      fetch_from_api save_to_file w0 /\
    cache_file w0 = cache_file w /\
    open_write_fault w0 = open_write_fault w /\
    dump_fault w0 = dump_fault w /\
    feed w0 = feed w /\
    events w0 =
      events w ++ (if use_local_file then [cache_miss_line] else []).
Proof.
  intro Hcache. destruct use_local_file.
  - exists (emit [cache_miss_line] w). split.
    + unfold get_data, bind.
      now rewrite (load_local_absent w (Hcache eq_refl)).
    + repeat split.
  - exists w. split; [apply get_data_remote|].
    repeat split. now rewrite app_nil_r.
Qed.

Lemma requests_in_app (a b : list Event) :
  requests_in (a ++ b) = (requests_in a + requests_in b)%nat.
Proof. unfold requests_in. now rewrite filter_app, length_app. Qed.

End LoaderProperties.

(** X1: with the cache preferred and a cache file that holds a record set,
    [get_data] returns that record set and prints one line; it sends no
    request and writes nothing, whatever [save_to_file] is. *)
Theorem get_data_cache_hit (save_to_file : bool) (w : World) (data : Data) :
  cache_file w = Present (JsonText data) ->
  get_data true save_to_file w = (Ok data, emit [loaded_local_line] w).
Proof.
  intro Hfile. unfold get_data, bind.
  now rewrite (load_local_hit w data Hfile).
Qed.

Lemma get_data_cache_hit_witness :
  let w := world_with (Present (JsonText sample_data)) None None in
  cache_file w = Present (JsonText sample_data) /\
  get_data true true w = (Ok sample_data, emit [loaded_local_line] w).
Proof.
  intro w. split; [reflexivity|].
  apply (get_data_cache_hit true
           (world_with (Present (JsonText sample_data)) None None)
           sample_data).
  reflexivity.
Defined.

(** X2: round trip.  When the remote path is taken with [save_to_file],
    the feed answers a record set and the file can be written, [get_data]
    returns the record set and leaves it in the cache file; a later call
    that prefers the cache returns the same record set and sends no
    request. *)
Theorem get_data_persist_then_load (use_local_file : bool) (w : World)
    (data : Data) :
  (use_local_file = true -> cache_file w = Absent) ->
  feed w = Ok (JsonText data) ->
  writable w ->
  exists w1,
    get_data use_local_file true w = (Ok data, w1) /\
    cache_file w1 = Present (JsonText data) /\
    forall save_to_file,
      get_data true save_to_file w1 =
        (Ok data, emit [loaded_local_line] w1).
Proof.
  intros Hcache Hfeed [Hopen Hdump].
  destruct (get_data_takes_remote_path use_local_file true w Hcache)
    as (w0 & Hrun & _ & Ho & Hd & Hf & _).
  rewrite Hrun.
  rewrite (fetch_saved w0 data)
    by (try split; congruence).
  eexists. split; [reflexivity|]. split; [reflexivity|].
  intro save_to_file. unfold get_data, bind.
  rewrite (load_local_hit _ data) by reflexivity. reflexivity.
Qed.

Lemma get_data_persist_then_load_witness :
  let w := world_with Absent None None in
  exists w1,
    get_data true true w = (Ok sample_data, w1) /\
    cache_file w1 = Present (JsonText sample_data) /\
    forall save_to_file,
      get_data true save_to_file w1 =
        (Ok sample_data, emit [loaded_local_line] w1).
Proof.
  apply (get_data_persist_then_load true (world_with Absent None None)
           sample_data).
  - reflexivity.
  - reflexivity.
  - split; reflexivity.
Defined.

(** X3: no retry and no partial result.  When the remote path is taken
    and the request raises, or the body is not JSON, [get_data] raises
    that error after exactly one request; the cache file is left as it
    was, also with [save_to_file]. *)
Theorem get_data_feed_failure (use_local_file save_to_file : bool)
    (w : World) (e : exn) :
  (use_local_file = true -> cache_file w = Absent) ->
  feed_fails w e ->
  exists w',
    get_data use_local_file save_to_file w = (Raise e, w') /\
    cache_file w' = cache_file w /\
    events w' =
      events w ++ (if use_local_file then [cache_miss_line] else []) ++
      [fetching_line; request_event].
Proof.
  intros Hcache Hfeed.
  destruct (get_data_takes_remote_path use_local_file save_to_file w Hcache)
    as (w0 & Hrun & Hc & _ & _ & Hf & Hev).
  rewrite Hrun, (fetch_feed_fails save_to_file w0 e)
    by (unfold feed_fails in *; now rewrite Hf).
  eexists. split; [reflexivity|]. split; [exact Hc|].
  cbn [emit events]. now rewrite Hev, <- app_assoc.
Qed.

Lemma get_data_feed_failure_witness :
  let w := {| cache_file := Absent; open_write_fault := None;
              dump_fault := None; feed := Raise ConnectionError;
              events := [] |} in
  exists w',
    get_data true true w = (Raise ConnectionError, w') /\
    cache_file w' = cache_file w /\
    events w' =
      events w ++ [cache_miss_line] ++ [fetching_line; request_event].
Proof.
  apply (get_data_feed_failure true true
           {| cache_file := Absent; open_write_fault := None;
              dump_fault := None; feed := Raise ConnectionError;
              events := [] |} ConnectionError).
  - reflexivity.
  - left; reflexivity.
Defined.

(** X4: without [save_to_file], [get_data] never changes the cache file,
    whatever the world and whether it returns or raises. *)
Theorem get_data_without_save_keeps_cache (use_local_file : bool)
    (w : World) :
  cache_file (snd (get_data use_local_file false w)) = cache_file w.
Proof.
  destruct (get_data_cases use_local_file false w)
    as [(d & _ & H) | [(e & H) | [(e & H) | [(d & _ & H) |
        [(e & Hs & _) | (d & Hs & _)]]]]];
    try discriminate Hs; rewrite H; reflexivity.
Qed.

(** X5: a call of [get_data] sends at most one request, and only the
    fixed query of the feed. *)
Theorem get_data_at_most_one_request (use_local_file save_to_file : bool)
    (w : World) :
  exists evs,
    events (snd (get_data use_local_file save_to_file w)) = events w ++ evs /\
    (requests_in evs <= 1)%nat /\
    forall url params,
      In (Requested url params) evs ->
      url = feed_url /\ params = feed_params.
Proof.
  assert (Hfixed : forall evs url params,
            In (Requested url params)
               ((if use_local_file then [cache_miss_line] else []) ++ evs) ->
            In (Requested url params) evs).
  { intros evs url params Hin. apply in_app_or in Hin.
    destruct Hin as [Hin | Hin]; [|exact Hin].
    destruct use_local_file; [|contradiction].
    destruct Hin as [Hin | []]. discriminate Hin. }
  assert (Hcount : forall evs,
            requests_in
              ((if use_local_file then [cache_miss_line] else []) ++ evs) =
            requests_in evs).
  { intro evs. rewrite requests_in_app. now destruct use_local_file. }
  destruct (get_data_cases use_local_file save_to_file w)
    as [(d & _ & H) | [(e & H) | [(e & H) | [(d & _ & H) |
        [(e & _ & H) | (d & _ & H)]]]]]; rewrite H; cbn [snd emit events].
  - exists [loaded_local_line]. split; [reflexivity|].
    split; [cbn; lia|]. intros url params [Hin | []]. discriminate Hin.
  - exists []. split; [now rewrite app_nil_r|].
    split; [cbn; lia|]. intros url params [].
  - eexists. split; [reflexivity|]. rewrite Hcount.
    split; [cbn; lia|]. intros url params Hin. apply Hfixed in Hin.
    destruct Hin as [Hin | [Hin | []]]; [discriminate Hin|].
    injection Hin as <- <-. now split.
  - eexists. split; [reflexivity|]. rewrite Hcount.
    split; [cbn; lia|]. intros url params Hin. apply Hfixed in Hin.
    destruct Hin as [Hin | [Hin | []]]; [discriminate Hin|].
    injection Hin as <- <-. now split.
  - eexists. split; [reflexivity|]. rewrite Hcount.
    split; [cbn; lia|]. intros url params Hin. apply Hfixed in Hin.
    destruct Hin as [Hin | [Hin | []]]; [discriminate Hin|].
    injection Hin as <- <-. now split.
  - eexists. split; [reflexivity|]. rewrite Hcount.
    split; [cbn; lia|]. intros url params Hin. apply Hfixed in Hin.
    destruct Hin as [Hin | [Hin | [Hin | []]]]; try discriminate Hin.
    injection Hin as <- <-. now split.
Qed.

(** X6: whenever [get_data] returns with [save_to_file] set, the cache
    file holds exactly the record set it returned. *)
Theorem get_data_saved_cache_holds_result (use_local_file : bool)
    (w w' : World) (data : Data) :
  get_data use_local_file true w = (Ok data, w') ->
  cache_file w' = Present (JsonText data).
Proof.
  intro Hrun.
  destruct (get_data_cases use_local_file true w)
    as [(d & Hfile & H) | [(e & H) | [(e & H) | [(d & Hs & _) |
        [(e & _ & H) | (d & _ & H)]]]]];
    try discriminate Hs; rewrite H in Hrun; try discriminate Hrun;
    injection Hrun as <- <-; [exact Hfile | reflexivity].
Qed.

Lemma get_data_saved_cache_holds_result_witness :
  let w := world_with Absent None None in
  cache_file (snd (get_data false true w)) = Present (JsonText sample_data).
Proof.
  intro w.
  apply (get_data_saved_cache_holds_result false
           (world_with Absent None None)
           (snd (get_data false true (world_with Absent None None)))
           sample_data).
  reflexivity.
Defined.

(** X7: a failed dump poisons the cache.  When the file opens for writing
    but [json.dump] raises, [get_data] raises that error and leaves an
    unparsable cache file: every later call that prefers the cache raises
    JSONDecodeError instead of fetching again. *)
Theorem get_data_failed_dump_poisons_cache (use_local_file : bool)
    (w : World) (data : Data) (e : exn) :
  (use_local_file = true -> cache_file w = Absent) ->
  feed w = Ok (JsonText data) ->
  open_write_fault w = None ->
  dump_fault w = Some e ->
  exists w1,
    get_data use_local_file true w = (Raise e, w1) /\
    forall save_to_file,
      get_data true save_to_file w1 = (Raise JSONDecodeError, w1).
Proof.
  intros Hcache Hfeed Hopen Hdump.
  destruct (get_data_takes_remote_path use_local_file true w Hcache)
    as (w0 & Hrun & _ & Ho & Hd & Hf & _).
  rewrite Hrun, (fetch_dump_fails w0 data e) by congruence.
  eexists. split; [reflexivity|].
  intro save_to_file.
  now rewrite (get_data_read_failure_eq save_to_file _ JSONDecodeError).
Qed.

Lemma get_data_failed_dump_poisons_cache_witness :
  let w := world_with Absent None (Some PermissionError) in
  exists w1,
    get_data false true w = (Raise PermissionError, w1) /\
    forall save_to_file,
      get_data true save_to_file w1 = (Raise JSONDecodeError, w1).
Proof.
  apply (get_data_failed_dump_poisons_cache false
           (world_with Absent None (Some PermissionError))
           sample_data PermissionError); (reflexivity || discriminate).
Defined.

(* ================================================================= *)
(** * More on the strongest earthquake *)

Section MaximumTies.

Context {A : Type} (key : A -> Q).

Lemma Qltb_of_lt (x y : Q) : (x < y)%Q -> Qltb x y = true.
Proof.
  intro H. unfold Qltb. apply negb_true_iff.
  destruct (Qle_bool y x) eqn:E; [|reflexivity].
  apply Qle_bool_iff in E. now apply Qlt_not_le in H.
Qed.

Lemma Qltb_of_le (x y : Q) : (y <= x)%Q -> Qltb x y = false.
Proof.
  intro H. unfold Qltb. apply negb_false_iff. now apply Qle_bool_iff.
Qed.

Lemma max_go_keeps (rest : list A) (best : A) :
  Forall (fun x => (key x <= key best)%Q) rest ->
  max_go key best rest = best.
Proof.
  induction 1 as [|x tl Hx _ IH]; cbn; [reflexivity|].
  now rewrite (Qltb_of_le _ _ Hx).
Qed.

Lemma max_go_moves (pre post : list A) (f : A) : forall current,
  (key current < key f)%Q ->
  Forall (fun x => (key x < key f)%Q) pre ->
  Forall (fun x => (key x <= key f)%Q) post ->
  max_go key current (pre ++ f :: post) = f.
Proof.
  induction pre as [|x tl IH]; intros current Hcur Hpre Hpost; cbn.
  - rewrite (Qltb_of_lt _ _ Hcur). now apply max_go_keeps.
  - inversion Hpre as [|? ? Hx Htl]; subst.
    destruct (Qltb (key current) (key x)); now apply IH.
Qed.

End MaximumTies.

(** X8: on a record set without features [get_maximum] raises
    ValueError. *)
Theorem get_maximum_empty (data : Data) :
  features data = [] -> get_maximum data = Raise ValueError.
Proof. unfold get_maximum. now intros ->. Qed.

Lemma get_maximum_empty_witness :
  features {| features := [] |} = [] /\
  get_maximum {| features := [] |} = Raise ValueError.
Proof.
  split; [reflexivity|].
  apply (get_maximum_empty {| features := [] |}). reflexivity.
Defined.

(** X9: among features of equal greatest magnitude [get_maximum] reports
    the first: a feature that is strictly stronger than every feature
    before it and at least as strong as every feature after it is the one
    whose magnitude and location are returned. *)
Theorem get_maximum_first_of_ties (data : Data) (before after : list Feature)
    (strongest : Feature) :
  features data = before ++ strongest :: after ->
  Forall (fun e => (get_magnitude e < get_magnitude strongest)%Q) before ->
  Forall (fun e => (get_magnitude e <= get_magnitude strongest)%Q) after ->
  get_maximum data =
    Ok (get_magnitude strongest, get_location strongest).
Proof.
  intros Hfeat Hbefore Hafter. unfold get_maximum. rewrite Hfeat.
  destruct before as [|first rest]; cbn [app py_max rbind].
  - now rewrite max_go_keeps.
  - inversion Hbefore as [|? ? Hfirst Hrest]; subst.
    now rewrite max_go_moves.
Qed.

Lemma get_maximum_first_of_ties_witness :
  let a := {| properties := {| time := 0; mag := 2 |};
              geometry := {| coordinates := (1, 51, 0)%Q |} |} in
  let b := {| properties := {| time := 1; mag := 4 |};
              geometry := {| coordinates := (2, 52, 0)%Q |} |} in
  let c := {| properties := {| time := 2; mag := 4 |};
              geometry := {| coordinates := (3, 53, 0)%Q |} |} in
  get_maximum {| features := [a; b; c] |} = Ok (4, (52, 2))%Q.
Proof.
  intros a b c.
  apply (get_maximum_first_of_ties {| features := [a; b; c] |} [a] [c] b).
  - reflexivity.
  - repeat constructor.
  - repeat constructor. discriminate.
Defined.

(* ================================================================= *)
(** * More on the aggregator *)

Section AggregatorEdges.

Lemma unique_nonempty (years : list Z) : years <> [] -> np.unique years <> [].
Proof.
  destruct years as [|y tl]; [congruence|]. intros _ Hnil.
  assert (Hin : In y (np.unique (y :: tl))) by (apply unique_In; now left).
  rewrite Hnil in Hin. exact Hin.
Qed.

Lemma filter_count_positive (year : Z) (years : list Z) :
  In year years ->
  Nat.le 1 (length (filter (fun y => y =? year) years)).
Proof.
  intro Hin.
  assert (Hf : In year (filter (fun y => y =? year) years))
    by (apply filter_In; split; [exact Hin | apply Z.eqb_refl]).
  destruct (filter _ years); [contradiction | cbn; lia].
Qed.

Lemma sorted_lt_same_elements (l1 : list Z) : forall l2,
  StronglySorted Z.lt l1 -> StronglySorted Z.lt l2 ->
  (forall z, In z l1 <-> In z l2) ->
  l1 = l2.
Proof.
  induction l1 as [|x t1 IH]; intros [|y t2] H1 H2 Hsame.
  - reflexivity.
  - destruct (proj2 (Hsame y)); now left.
  - destruct (proj1 (Hsame x)); now left.
  - inversion H1 as [|? ? Hs1 Hall1]; inversion H2 as [|? ? Hs2 Hall2]; subst.
    rewrite Forall_forall in Hall1, Hall2.
    assert (Hxy : x = y).
    { destruct (proj1 (Hsame x) (or_introl eq_refl)) as [Hy | Hx];
        [now symmetry|].
      destruct (proj2 (Hsame y) (or_introl eq_refl)) as [Hx' | Hy];
        [exact Hx'|].
      specialize (Hall2 x Hx). specialize (Hall1 y Hy). lia. }
    subst y. f_equal. apply IH; try assumption.
    intro z. split; intro Hz.
    + destruct (proj1 (Hsame z) (or_intror Hz)) as [Heq | Hin]; [|exact Hin].
      specialize (Hall1 z Hz). lia.
    + destruct (proj2 (Hsame z) (or_intror Hz)) as [Heq | Hin]; [|exact Hin].
      specialize (Hall2 z Hz). lia.
Qed.

Lemma filter_length_perm {A : Type} (f : A -> bool) (l1 l2 : list A) :
  Permutation l1 l2 -> length (filter f l1) = length (filter f l2).
Proof.
  induction 1 as [|x l1 l2 _ IH|x y l|l1 l2 l3 _ IH1 _ IH2]; cbn.
  - reflexivity.
  - destruct (f x); cbn; now rewrite IH.
  - destruct (f x), (f y); reflexivity.
  - congruence.
Qed.

End AggregatorEdges.

(** X10: with at least one year and a magnitudes array of another length,
    the aggregator raises IndexError at the first mask indexing. *)
Theorem analyze_length_mismatch (years : list Z) (magnitudes : list float64) :
  years <> [] ->
  length magnitudes <> length years ->
  analyze_earthquakes_by_year years magnitudes = Raise IndexError.
Proof.
  intros Hne Hlen. unfold analyze_earthquakes_by_year.
  rewrite year_loop_mismatch; [reflexivity | exact Hlen |].
  now apply unique_nonempty.
Qed.

Lemma analyze_length_mismatch_witness :
  analyze_earthquakes_by_year [2000; 2001] [Fin 3] = Raise IndexError.
Proof.
  apply (analyze_length_mismatch [2000; 2001] [Fin 3]); discriminate.
Defined.

(** X11: the years the aggregator returns are exactly the years that
    occur in the input, and every returned frequency is at least 1: no
    year is invented, none is dropped, none is reported with no event. *)
Theorem analyze_years_are_input_years (years : list Z)
    (magnitudes : list float64) unique_years frequency avg :
  analyze_earthquakes_by_year years magnitudes =
    Ok (unique_years, frequency, avg) ->
  (forall year, In year unique_years <-> In year years) /\
  Forall (fun f => 1 <= f) frequency.
Proof.
  intro Hret. pose proof Hret as Hret'. apply analyze_returns in Hret.
  injection Hret as -> -> ->. split.
  - intro year. apply unique_In.
  - destruct (analyze_returns_input _ _ _ Hret') as [Hlen | ->];
      [|constructor].
    apply Forall_forall. intros f Hf. apply in_map_iff in Hf.
    destruct Hf as (year & <- & Hyear).
    rewrite (select_length year years magnitudes Hlen).
    apply (proj1 (unique_In year years)) in Hyear.
    pose proof (filter_count_positive year years Hyear). lia.
Qed.

Lemma analyze_years_are_input_years_witness :
  (forall year, In year [2000; 2001] <-> In year [2001; 2000; 2001]) /\
  Forall (fun f => 1 <= f) [1; 2].
Proof.
  apply (analyze_years_are_input_years [2001; 2000; 2001]
           [Fin 2; Fin 4; Fin 3] [2000; 2001] [1; 2] [Fin 4; Fin (5 # 2)]).
  reflexivity.
Defined.

(** X12: the returned years and frequencies depend only on which years
    occur and how often, not on the order of the records: two inputs
    whose year arrays are permutations of each other get the same years
    and the same frequencies. *)
Theorem analyze_order_independent (years1 years2 : list Z)
    (magnitudes1 magnitudes2 : list float64) :
  Permutation years1 years2 ->
  length magnitudes1 = length years1 ->
  length magnitudes2 = length years2 ->
  exists unique_years frequency avg1 avg2,
    analyze_earthquakes_by_year years1 magnitudes1 =
      Ok (unique_years, frequency, avg1) /\
    analyze_earthquakes_by_year years2 magnitudes2 =
      Ok (unique_years, frequency, avg2).
Proof.
  intros Hperm Hlen1 Hlen2.
  rewrite (analyze_ok _ _ Hlen1), (analyze_ok _ _ Hlen2).
  assert (Hu : np.unique years1 = np.unique years2).
  { apply sorted_lt_same_elements; try apply unique_sorted.
    intro z. rewrite !unique_In. split; intro Hz.
    - eapply Permutation_in; eassumption.
    - eapply Permutation_in; [apply Permutation_sym|]; eassumption. }
  assert (Hf : forall us : list Z,
            map (fun year =>
                   Z.of_nat (length (np.take_where magnitudes1
                                       (np.eq_scalar years1 year)))) us =
            map (fun year =>
                   Z.of_nat (length (np.take_where magnitudes2
                                       (np.eq_scalar years2 year)))) us).
  { intro us. apply map_ext. intro year.
    rewrite (select_length year years1 magnitudes1 Hlen1),
      (select_length year years2 magnitudes2 Hlen2).
    f_equal. now apply filter_length_perm. }
  cbv zeta. rewrite Hu, Hf. eexists _, _, _, _. split; reflexivity.
Qed.

Lemma analyze_order_independent_witness :
  exists unique_years frequency avg1 avg2,
    analyze_earthquakes_by_year [2001; 2000; 2001] [Fin 2; Fin 4; Fin 3] =
      Ok (unique_years, frequency, avg1) /\
    analyze_earthquakes_by_year [2000; 2001; 2001] [Fin 4; Fin 3; Fin 2] =
      Ok (unique_years, frequency, avg2).
Proof.
  apply (analyze_order_independent [2001; 2000; 2001] [2000; 2001; 2001]
           [Fin 2; Fin 4; Fin 3] [Fin 4; Fin 3; Fin 2]).
  - apply perm_swap.
  - reflexivity.
  - reflexivity.
Defined.

(* ================================================================= *)
(** * From the records to the summary *)

Section Pipeline.

Variable fromtimestamp_year : Q -> result Z.

Lemma emit_nil (w : World) : emit [] w = w.
Proof. destruct w. unfold emit; cbn. now rewrite app_nil_r. Qed.

(** X13: extraction always hands the aggregator arrays it accepts.
    Whenever extraction returns, the aggregation of the extracted arrays
    returns too; its frequencies add up to the number of records, its
    years are strictly ascending and its three arrays have one length. *)
Theorem extract_then_analyze (data : Data) (years : list Z)
    (magnitudes : list float64) :
  extract_earthquake_data fromtimestamp_year data = Ok (years, magnitudes) ->
  exists unique_years frequency avg,
    analyze_earthquakes_by_year years magnitudes =
      Ok (unique_years, frequency, avg) /\
    np.sum frequency = Z.of_nat (count_earthquakes data) /\
    StronglySorted Z.lt unique_years /\
    length frequency = length unique_years /\
    length avg = length unique_years.
Proof.
  intro Hrun.
  destruct (extract_returns _ data years magnitudes Hrun) as [Hconv Hmag].
  pose proof (Forall2_length Hconv) as Hcount.
  assert (Hlen : length magnitudes = length years)
    by (rewrite Hmag, length_map; exact Hcount).
  pose proof (analyze_ok _ _ Hlen) as Hok. cbv zeta in Hok.
  eexists _, _, _. split; [exact Hok|].
  rewrite !length_map. split; [|split; [apply unique_sorted | split; reflexivity]].
  unfold count_earthquakes. rewrite Hcount.
  rewrite <- (count_partition (np.unique years) (unique_NoDup years) years)
    by (intros x Hx; now apply unique_In).
  f_equal. apply map_ext. intro u. now rewrite select_length.
Qed.

End Pipeline.

Lemma extract_then_analyze_witness :
  exists unique_years frequency avg,
    analyze_earthquakes_by_year [2000; 2000; 2001] [Fin 2; Fin 4; Fin 3] =
      Ok (unique_years, frequency, avg) /\
    np.sum frequency = Z.of_nat (count_earthquakes sample_data) /\
    StronglySorted Z.lt unique_years /\
    length frequency = length unique_years /\
    length avg = length unique_years.
Proof.
  apply (extract_then_analyze (fromtimestamp_year_in_zone 0) sample_data
           [2000; 2000; 2001] [Fin 2; Fin 4; Fin 3]).
  reflexivity.
Defined.

(* ================================================================= *)
(** * Edges of the reporter *)

(** X14: on an empty years array the summary prints its three header
    lines and raises IndexError at [years[0]], whatever the other two
    arrays are. *)
Theorem summary_of_no_year_raises (frequency : list Z)
    (avg_magnitude : list float64) (w : World) :
  print_summary_statistics [] frequency avg_magnitude w =
    (Raise IndexError, emit summary_header w).
Proof.
  unfold print_summary_statistics, bind, print, print_line, lift.
  cbn [np.item nth_error].
  rewrite (log_is_emit _ w), !log_emit. reflexivity.
Qed.

(** X15: with years but an empty frequency array the summary prints seven
    lines, the last with the mean of no count, NaN, and raises ValueError
    at [np.argmax(frequency)]. *)
Theorem summary_of_no_count_raises (years : list Z)
    (avg_magnitude : list float64) (w : World) :
  years <> [] ->
  print_summary_statistics years [] avg_magnitude w =
    (Raise ValueError, emit (summary_header ++ summary_totals years []) w) /\
  np.mean_int [] = NaN.
Proof.
  intro Hne. split; [|reflexivity].
  unfold print_summary_statistics, bind, print, print_line, lift.
  rewrite (last_item_last years Hne).
  destruct years as [|y0 ys]; [congruence|].
  cbn [np.item nth_error np.argmax np.arg_first].
  rewrite (log_is_emit _ w), !log_emit. reflexivity.
Qed.

Lemma summary_of_no_count_raises_witness :
  print_summary_statistics [2000] [] [] (world_with Absent None None) =
    (Raise ValueError,
     emit (summary_header ++ summary_totals [2000] [])
       (world_with Absent None None)) /\
  np.mean_int [] = NaN.
Proof.
  apply (summary_of_no_count_raises [2000] []
           (world_with Absent None None)).
  discriminate.
Defined.

Section PrintsOnly.

Lemma prints_only_lift {A : Type} (r : result A) : prints_only (lift r).
Proof. intro w. exists []. cbn. now rewrite emit_nil. Qed.

Lemma prints_only_print_line (l : Line) : prints_only (print_line l).
Proof. intro w. now exists [l]. Qed.

Lemma prints_only_bind {A B : Type} (m : IO A) (k : A -> IO B) :
  prints_only m -> (forall a, prints_only (k a)) -> prints_only (bind m k).
Proof.
  intros Hm Hk w. unfold bind.
  destruct (Hm w) as (l1 & H1). destruct (m w) as [[a|e] w1]; cbn in H1.
  - destruct (Hk a w1) as (l2 & H2). exists (l1 ++ l2).
    rewrite H2, H1, emit_emit. now rewrite map_app.
  - exists l1. exact H1.
Qed.

End PrintsOnly.

(** X16: the summary does nothing but print.  On every input and in every
    world, returning or raising, it leaves the world as it was but for
    printed lines: the cache file and the feed are untouched and no
    request is sent. *)
Theorem summary_prints_only (years frequency : list Z)
    (avg_magnitude : list float64) :
  prints_only (print_summary_statistics years frequency avg_magnitude).
Proof.
  unfold print_summary_statistics, print.
  repeat (apply prints_only_bind;
          [first [apply prints_only_print_line | apply prints_only_lift]
          | intro]).
  apply prints_only_print_line.
Qed.

(* ================================================================= *)
(** * The entry point *)

Section MainProperties.

Variable fromtimestamp_year : Q -> result Z.
Variable create_plots : list Z -> list Z -> list float64 -> IO unit.

Let run_main : IO unit := main fromtimestamp_year create_plots.

(** [main] up to the extraction, once the loader has returned. *)
Lemma main_after_load (w w1 : World) (data : Data) :
  get_data true false (emit [loading_line] w) = (Ok data, w1) ->
  run_main w =
    (extracted <- lift (extract_earthquake_data fromtimestamp_year data) ;;
     let '(years, magnitudes) := extracted in
     r <- lift (analyze_earthquakes_by_year years magnitudes) ;;
     let '(unique_years, frequency_per_year, avg_magnitude_per_year) := r in
     print_summary_statistics
       unique_years frequency_per_year avg_magnitude_per_year ;;
     create_plots unique_years frequency_per_year avg_magnitude_per_year)%io
    (emit [loaded_count_line data] w1).
Proof.
  intro Hload. unfold run_main, main. unfold bind at 1. unfold print at 1.
  unfold print_line at 1. cbv beta iota.
  unfold bind at 1. rewrite log_is_emit. fold loading_line. rewrite Hload.
  unfold bind at 1. unfold print_line at 1. cbv beta iota.
  now rewrite log_is_emit.
Qed.

(** X18: when the loader returns a record set without features, [main]
    prints the count 0 and the three header lines of the summary and
    raises IndexError; [create_plots] is not called. *)
Theorem main_on_no_record_raises (w w1 : World) (data : Data) :
  get_data true false (emit [loading_line] w) = (Ok data, w1) ->
  features data = [] ->
  main fromtimestamp_year create_plots w =
    (Raise IndexError, emit (loaded_count_line data :: summary_header) w1).
Proof.
  intros Hload Hnil. fold run_main.
  rewrite (main_after_load w w1 data Hload).
  unfold extract_earthquake_data. rewrite Hnil.
  cbn [extract_loop rbind np_array_float map].
  unfold bind at 1. unfold lift at 1. cbv beta iota.
  unfold bind at 1. unfold lift at 1.
  change (analyze_earthquakes_by_year [] []) with
    (Ok (@nil Z, @nil Z, @nil float64)).
  cbv beta iota. unfold bind at 1.
  unfold print_summary_statistics, bind, print, print_line, lift.
  cbn [np.item nth_error].
  rewrite !log_is_emit, !emit_emit. reflexivity.
Qed.

(** X19: with no cache file and a feed that gives no record set, [main]
    raises the feed's error after one request; nothing is summarised,
    [create_plots] is not called and no cache file is written. *)
Theorem main_without_data_raises (w : World) (e : exn) :
  cache_file w = Absent ->
  feed_fails w e ->
  main fromtimestamp_year create_plots w =
    (Raise e,
     emit [loading_line; cache_miss_line; fetching_line; request_event] w).
Proof.
  intros Hfile Hfeed. unfold main. unfold bind at 1. unfold print at 1.
  unfold print_line at 1. cbv beta iota. unfold bind at 1.
  rewrite log_is_emit. unfold get_data, bind at 1.
  rewrite (load_local_absent (emit _ w)) by exact Hfile.
  rewrite (fetch_feed_fails false _ e) by exact Hfeed.
  now rewrite !emit_emit.
Qed.

End MainProperties.

Lemma main_on_no_record_raises_witness :
  let empty := {| features := [] |} in
  let w := world_with (Present (JsonText empty)) None None in
  let plots := fun (_ _ : list Z) (_ : list float64) => ret tt in
  main (fromtimestamp_year_in_zone 0) plots w =
    (Raise IndexError,
     emit (loaded_count_line empty :: summary_header)
       (emit [loading_line; loaded_local_line] w)).
Proof.
  apply (main_on_no_record_raises (fromtimestamp_year_in_zone 0)
           (fun (_ _ : list Z) (_ : list float64) => ret tt)
           (world_with (Present (JsonText {| features := [] |})) None None)
           (emit [loading_line; loaded_local_line]
              (world_with (Present (JsonText {| features := [] |}))
                 None None))
           {| features := [] |}).
  - reflexivity.
  - reflexivity.
Defined.

Lemma main_without_data_raises_witness :
  let w := {| cache_file := Absent; open_write_fault := None;
              dump_fault := None; feed := Raise ConnectionError;
              events := [] |} in
  let plots := fun (_ _ : list Z) (_ : list float64) => ret tt in
  main (fromtimestamp_year_in_zone 0) plots w =
    (Raise ConnectionError,
     emit [loading_line; cache_miss_line; fetching_line; request_event] w).
Proof.
  apply (main_without_data_raises (fromtimestamp_year_in_zone 0)
           (fun (_ _ : list Z) (_ : list float64) => ret tt)
           {| cache_file := Absent; open_write_fault := None;
              dump_fault := None; feed := Raise ConnectionError;
              events := [] |} ConnectionError).
  - reflexivity.
  - left; reflexivity.
Defined.

(* ================================================================= *)
(** * Purity of the aggregator *)

Section StatefulAggregator.

Context {F : Type} (np_mean : list F -> F).

Abbreviation heap := (@Stateful.heap F).
Abbreviation object := (@Stateful.object F).
Abbreviation during := (@Stateful.during F).

Lemma run_bind_ok {S A B : Type} (m : Run S A) (k : A -> Run S B)
    (s s' : S) (a : A) :
  m s = (Ok a, s') -> run_bind m k s = k a s'.
Proof. intro H. unfold run_bind. now rewrite H. Qed.

Lemma run_bind_raise {S A B : Type} (m : Run S A) (k : A -> Run S B)
    (s s' : S) (e : exn) :
  m s = (Raise e, s') -> run_bind m k s = (Raise e, s').
Proof. intro H. unfold run_bind. now rewrite H. Qed.

Lemma load_ok (h : heap) (r : nat) (o : object) :
  nth_error h r = Some o -> Stateful.load r h = (Ok o, h).
Proof. intro H. unfold Stateful.load. now rewrite H. Qed.

Lemma nth_old (h rest : heap) (r : nat) (o : object) :
  nth_error h r = Some o -> nth_error (h ++ rest) r = Some o.
Proof.
  intro H. rewrite nth_error_app1; [exact H|].
  apply nth_error_Some. congruence.
Qed.

Lemma nth_new (h rest : heap) (k : nat) :
  nth_error (h ++ rest) (length h + k) = nth_error rest k.
Proof.
  rewrite nth_error_app2 by lia. f_equal. lia.
Qed.

Lemma nth_last (h : heap) (o : object) :
  nth_error (h ++ [o]) (length h) = Some o.
Proof.
  rewrite nth_error_app2 by lia. now rewrite Nat.sub_diag.
Qed.

Lemma replace_new (h rest : heap) (k : nat) (o : object) :
  Stateful.replace_at (length h + k) o (h ++ rest) =
  h ++ Stateful.replace_at k o rest.
Proof.
  induction h as [|x tl IH]; cbn; [reflexivity|].
  now rewrite IH.
Qed.

(** What each operation does on a heap that holds its operands. *)
Lemma np_unique_run (h : heap) (a : nat) (ys : list Z) :
  nth_error h a = Some (Stateful.IntArray ys) ->
  Stateful.np_unique a h =
  (Ok (length h), h ++ [Stateful.IntArray (np.unique ys)]).
Proof.
  intro Ha. unfold Stateful.np_unique.
  now rewrite (run_bind_ok _ _ _ _ _ (load_ok _ _ _ Ha)).
Qed.

Lemma int_array_len_run (h : heap) (a : nat) (ys : list Z) :
  nth_error h a = Some (Stateful.IntArray ys) ->
  Stateful.int_array_len a h = (Ok (length ys), h).
Proof.
  intro Ha. unfold Stateful.int_array_len.
  now rewrite (run_bind_ok _ _ _ _ _ (load_ok _ _ _ Ha)).
Qed.

Lemma int_array_item_run (h : heap) (a i : nat) (ys : list Z) (y : Z) :
  nth_error h a = Some (Stateful.IntArray ys) ->
  nth_error ys i = Some y ->
  Stateful.int_array_item a i h = (Ok y, h).
Proof.
  intros Ha Hi. unfold Stateful.int_array_item.
  rewrite (run_bind_ok _ _ _ _ _ (load_ok _ _ _ Ha)).
  unfold run_lift, np.item. now rewrite Hi.
Qed.

Lemma np_eq_scalar_run (h : heap) (a : nat) (ys : list Z) (v : Z) :
  nth_error h a = Some (Stateful.IntArray ys) ->
  Stateful.np_eq_scalar a v h =
  (Ok (length h), h ++ [Stateful.BoolArray (np.eq_scalar ys v)]).
Proof.
  intro Ha. unfold Stateful.np_eq_scalar.
  now rewrite (run_bind_ok _ _ _ _ _ (load_ok _ _ _ Ha)).
Qed.

Lemma np_bool_index_run (h : heap) (a mask : nat) (ms : list F)
    (bs : list bool) :
  nth_error h a = Some (Stateful.FloatArray ms) ->
  nth_error h mask = Some (Stateful.BoolArray bs) ->
  Stateful.np_bool_index a mask h =
  match np.bool_index ms bs with
  | Ok selected => (Ok (length h), h ++ [Stateful.FloatArray selected])
  | Raise e => (Raise e, h)
  end.
Proof.
  intros Ha Hmask. unfold Stateful.np_bool_index.
  rewrite (run_bind_ok _ _ _ _ _ (load_ok _ _ _ Ha)).
  rewrite (run_bind_ok _ _ _ _ _ (load_ok _ _ _ Hmask)).
  unfold run_bind, run_lift.
  now destruct (np.bool_index ms bs).
Qed.

Lemma float_array_len_run (h : heap) (a : nat) (ms : list F) :
  nth_error h a = Some (Stateful.FloatArray ms) ->
  Stateful.float_array_len a h = (Ok (Z.of_nat (length ms)), h).
Proof.
  intro Ha. unfold Stateful.float_array_len.
  now rewrite (run_bind_ok _ _ _ _ _ (load_ok _ _ _ Ha)).
Qed.

Lemma np_mean_of_run (h : heap) (a : nat) (ms : list F) :
  nth_error h a = Some (Stateful.FloatArray ms) ->
  Stateful.np_mean_of np_mean a h = (Ok (np_mean ms), h).
Proof.
  intro Ha. unfold Stateful.np_mean_of.
  now rewrite (run_bind_ok _ _ _ _ _ (load_ok _ _ _ Ha)).
Qed.

Lemma append_int_run (h : heap) (l : nat) (xs : list Z) (x : Z) :
  nth_error h l = Some (Stateful.IntList xs) ->
  Stateful.append_int l x h =
  (Ok tt, Stateful.replace_at l (Stateful.IntList (xs ++ [x])) h).
Proof.
  intro Hl. unfold Stateful.append_int.
  now rewrite (run_bind_ok _ _ _ _ _ (load_ok _ _ _ Hl)).
Qed.

Lemma append_float_run (h : heap) (l : nat) (xs : list F) (x : F) :
  nth_error h l = Some (Stateful.FloatList xs) ->
  Stateful.append_float l x h =
  (Ok tt, Stateful.replace_at l (Stateful.FloatList (xs ++ [x])) h).
Proof.
  intro Hl. unfold Stateful.append_float.
  now rewrite (run_bind_ok _ _ _ _ _ (load_ok _ _ _ Hl)).
Qed.

Lemma np_array_of_ints_run (h : heap) (l : nat) (xs : list Z) :
  nth_error h l = Some (Stateful.IntList xs) ->
  Stateful.np_array_of_ints l h =
  (Ok (length h), h ++ [Stateful.IntArray xs]).
Proof.
  intro Hl. unfold Stateful.np_array_of_ints.
  now rewrite (run_bind_ok _ _ _ _ _ (load_ok _ _ _ Hl)).
Qed.

Lemma np_array_of_floats_run (h : heap) (l : nat) (xs : list F) :
  nth_error h l = Some (Stateful.FloatList xs) ->
  Stateful.np_array_of_floats l h =
  (Ok (length h), h ++ [Stateful.FloatArray xs]).
Proof.
  intro Hl. unfold Stateful.np_array_of_floats.
  now rewrite (run_bind_ok _ _ _ _ _ (load_ok _ _ _ Hl)).
Qed.

Lemma during_snoc (h : heap) us fs avs temps (o : object) :
  during h us fs avs temps ++ [o] = during h us fs avs (temps ++ [o]).
Proof. unfold Stateful.during. now rewrite <- app_assoc. Qed.

Lemma during_old (h : heap) us fs avs temps (r : nat) (o : object) :
  nth_error h r = Some o ->
  nth_error (during h us fs avs temps) r = Some o.
Proof. apply nth_old. Qed.

Lemma during_unique (h : heap) us fs avs temps :
  nth_error (during h us fs avs temps) (length h) =
  Some (Stateful.IntArray us).
Proof.
  unfold during. rewrite <- (Nat.add_0_r (length h)) at 1.
  now rewrite nth_new.
Qed.

Lemma during_frequency (h : heap) us fs avs temps :
  nth_error (during h us fs avs temps) (length h + 1) =
  Some (Stateful.IntList fs).
Proof. unfold during. now rewrite nth_new. Qed.

Lemma during_avg (h : heap) us fs avs temps :
  nth_error (during h us fs avs temps) (length h + 2) =
  Some (Stateful.FloatList avs).
Proof. unfold during. now rewrite nth_new. Qed.

Section OneCall.

Variables (h : heap) (years magnitudes : nat).
Variables (ys : list Z) (ms : list F).
Hypothesis years_at : nth_error h years = Some (Stateful.IntArray ys).
Hypothesis magnitudes_at :
  nth_error h magnitudes = Some (Stateful.FloatArray ms).

(** One iteration changes the two lists as [year_step] does, and adds
    the mask and the selection to the heap. *)
Lemma year_body_run (us fs : list Z) (avs : list F) (temps : heap)
    (year : Z) :
  Stateful.year_body np_mean years magnitudes
    (length h + 1) (length h + 2) year (during h us fs avs temps) =
  match np.bool_index ms (np.eq_scalar ys year) with
  | Ok selected =>
      (Ok tt,
       during h us (fs ++ [Z.of_nat (length selected)])
         (avs ++ [np_mean selected])
         (temps ++ [Stateful.BoolArray (np.eq_scalar ys year);
                    Stateful.FloatArray selected]))
  | Raise e =>
      (Raise e,
       during h us fs avs
         (temps ++ [Stateful.BoolArray (np.eq_scalar ys year)]))
  end.
Proof.
  set (mask := np.eq_scalar ys year).
  unfold Stateful.year_body.
  rewrite (run_bind_ok _ _ _ _ _
             (np_eq_scalar_run _ _ _ year (during_old h us fs avs temps _ _ years_at))).
  fold mask. rewrite during_snoc.
  set (temps1 := temps ++ [Stateful.BoolArray mask]).
  assert (Hmask_at : nth_error (during h us fs avs temps1)
                       (length (during h us fs avs temps)) =
                     Some (Stateful.BoolArray mask)).
  { unfold temps1. rewrite <- during_snoc. apply nth_last. }
  pose proof (np_bool_index_run _ _ _ _ _
                (during_old h us fs avs temps1 _ _ magnitudes_at) Hmask_at)
    as Hindex.
  destruct (np.bool_index ms mask) as [selected|e].
  - rewrite (run_bind_ok _ _ _ _ _ Hindex). rewrite during_snoc.
    set (temps2 := temps1 ++ [Stateful.FloatArray selected]).
    assert (Hsel_at : nth_error (during h us fs avs temps2)
                        (length (during h us fs avs temps1)) =
                      Some (Stateful.FloatArray selected)).
    { unfold temps2. rewrite <- during_snoc. apply nth_last. }
    rewrite (run_bind_ok _ _ _ _ _ (float_array_len_run _ _ _ Hsel_at)).
    rewrite (run_bind_ok _ _ _ _ _ (np_mean_of_run _ _ _ Hsel_at)).
    rewrite (run_bind_ok _ _ _ _ _
               (append_int_run _ _ _ _ (during_frequency h us fs avs temps2))).
    unfold during at 1. rewrite replace_new.
    cbn [Stateful.replace_at].
    change (h ++ Stateful.IntArray us ::
                 Stateful.IntList (fs ++ [Z.of_nat (length selected)]) ::
                 Stateful.FloatList avs :: temps2)
      with (during h us (fs ++ [Z.of_nat (length selected)]) avs temps2).
    rewrite (append_float_run _ _ _ _ (during_avg h us _ avs temps2)).
    unfold during at 1. rewrite replace_new.
    cbn [Stateful.replace_at].
    unfold temps2, temps1, during. now rewrite <- app_assoc.
  - now rewrite (run_bind_raise _ _ _ _ _ Hindex).
Qed.

(** The loop is [year_loop], and every object it leaves beyond the
    unique years and the two lists is new. *)
Lemma for_year_in_run (us : list Z) :
  forall remaining i fs avs temps,
  (i + remaining = length us)%nat ->
  exists fs' avs' temps' outcome,
    Stateful.for_year_in (length h)
      (Stateful.year_body np_mean years magnitudes
         (length h + 1) (length h + 2))
      remaining i (during h us fs avs temps) =
    (outcome, during h us fs' avs' temps') /\
    match Generic.year_loop np_mean ys ms (skipn i us) (fs, avs) with
    | Ok acc => outcome = Ok tt /\ acc = (fs', avs')
    | Raise e => outcome = Raise e
    end.
Proof.
  induction remaining as [|remaining IH]; intros i fs avs temps Hi.
  - exists fs, avs, temps, (Ok tt). split; [reflexivity|].
    rewrite skipn_all2 by lia. cbn. now split.
  - destruct (nth_error us i) as [year|] eqn:Hyear;
      [|apply nth_error_None in Hyear; lia].
    assert (Hskip : skipn i us = year :: skipn (S i) us).
    { clear -Hyear. revert i Hyear.
      induction us as [|u tl IHu]; intros [|i] Hy; cbn in *;
        try discriminate.
      - now injection Hy as ->.
      - now apply IHu. }
    rewrite Hskip. cbn [Stateful.for_year_in Generic.year_loop].
    rewrite (run_bind_ok _ _ _ _ _
               (int_array_item_run _ _ _ _ _
                  (during_unique h us fs avs temps) Hyear)).
    pose proof (year_body_run us fs avs temps year) as Hbody.
    unfold Generic.year_step.
    destruct (np.bool_index ms (np.eq_scalar ys year)) as [selected|e].
    + rewrite (run_bind_ok _ _ _ _ _ Hbody). cbn [rbind].
      apply IH. lia.
    + rewrite (run_bind_raise _ _ _ _ _ Hbody). cbn [rbind].
      eexists _, _, _, _. split; reflexivity.
Qed.

(** The whole call, in terms of the loop of the aggregator. *)
Lemma analyze_run :
  exists fs avs temps,
    let left := during h (np.unique ys) fs avs temps in
    Stateful.analyze_earthquakes_by_year np_mean years magnitudes h =
    match Generic.year_loop np_mean ys ms (np.unique ys) ([], []) with
    | Ok acc =>
        (Ok (length h, length left, S (length left)),
         left ++ [Stateful.IntArray fs; Stateful.FloatArray avs])
    | Raise e => (Raise e, left)
    end /\
    match Generic.year_loop np_mean ys ms (np.unique ys) ([], []) with
    | Ok acc => acc = (fs, avs)
    | Raise e => True
    end.
Proof.
  set (us := np.unique ys).
  destruct (for_year_in_run us (length us) 0%nat [] [] [] eq_refl)
    as (fs & avs & temps & outcome & Hloop & Hout).
  cbn [skipn] in Hout.
  exists fs, avs, temps. cbv zeta.
  assert (Hstart :
    Stateful.analyze_earthquakes_by_year np_mean years magnitudes h =
    (Stateful.for_year_in (length h)
       (Stateful.year_body np_mean years magnitudes
          (length h + 1) (length h + 2)) (length us) 0%nat ;;
     frequency <- Stateful.np_array_of_ints (length h + 1) ;;
     avg <- Stateful.np_array_of_floats (length h + 2) ;;
     run_ret (length h, frequency, avg))%run (during h us [] [] [])).
  { unfold Stateful.analyze_earthquakes_by_year.
    rewrite (run_bind_ok _ _ _ _ _ (np_unique_run _ _ _ years_at)).
    fold us.
    rewrite (run_bind_ok _ _ (h ++ [Stateful.IntArray us])
               ((h ++ [Stateful.IntArray us]) ++ [Stateful.IntList []])
               (length (h ++ [Stateful.IntArray us])) eq_refl).
    rewrite (run_bind_ok _ _
               ((h ++ [Stateful.IntArray us]) ++ [Stateful.IntList []])
               (((h ++ [Stateful.IntArray us]) ++ [Stateful.IntList []]) ++
                [Stateful.FloatList []])
               (length ((h ++ [Stateful.IntArray us]) ++
                        [Stateful.IntList []])) eq_refl).
    rewrite !length_app. cbn [length].
    replace (length h + 1 + 1)%nat with (length h + 2)%nat by lia.
    rewrite <- !app_assoc. cbn [app].
    change (h ++ [Stateful.IntArray us; Stateful.IntList [];
                  Stateful.FloatList []])
      with (during h us [] [] []).
    now rewrite (run_bind_ok _ _ _ _ _
                   (int_array_len_run _ _ _ (during_unique h us [] [] []))). }
  rewrite Hstart.
  destruct (Generic.year_loop np_mean ys ms us ([], [])) as [acc|e].
  - destruct Hout as [-> ->]. split; [|reflexivity].
    rewrite (run_bind_ok _ _ _ _ _ Hloop).
    rewrite (run_bind_ok _ _ _ _ _
               (np_array_of_ints_run _ _ _
                  (during_frequency h us fs avs temps))).
    rewrite during_snoc.
    rewrite (run_bind_ok _ _ _ _ _
               (np_array_of_floats_run _ _ _
                  (during_avg h us fs avs _))).
    unfold run_ret. rewrite <- !during_snoc, <- app_assoc.
    rewrite length_app. cbn [length app].
    now rewrite Nat.add_1_r.
  - subst outcome. split; [|exact I].
    now rewrite (run_bind_raise _ _ _ _ _ Hloop).
Qed.

(** The call refines the aggregator on the contents of its two inputs,
    and what it leaves is the heap it found followed by new objects. *)
Lemma analyze_refines :
  exists fresh,
    snd (Stateful.analyze_earthquakes_by_year np_mean years magnitudes h) =
      h ++ fresh /\
    match Generic.analyze_earthquakes_by_year np_mean ys ms with
    | Ok out =>
        exists r,
          fst (Stateful.analyze_earthquakes_by_year
                 np_mean years magnitudes h) = Ok r /\
          Stateful.contents (h ++ fresh) r = Some out
    | Raise e =>
        fst (Stateful.analyze_earthquakes_by_year
               np_mean years magnitudes h) = Raise e
    end.
Proof.
  destruct analyze_run as (fs & avs & temps & Hrun & Hacc). cbv zeta in Hrun.
  unfold Generic.analyze_earthquakes_by_year. rewrite Hrun.
  set (us := np.unique ys) in *.
  destruct (Generic.year_loop np_mean ys ms us ([], [])) as [acc|e].
  - subst acc. cbn [fst snd rbind].
    exists (Stateful.IntArray us :: Stateful.IntList fs ::
            Stateful.FloatList avs ::
            temps ++ [Stateful.IntArray fs; Stateful.FloatArray avs]).
    split; [unfold during; now rewrite <- app_assoc|].
    eexists. split; [reflexivity|].
    unfold Stateful.contents.
    change (h ++ Stateful.IntArray us :: Stateful.IntList fs ::
            Stateful.FloatList avs ::
            temps ++ [Stateful.IntArray fs; Stateful.FloatArray avs])
      with (during h us fs avs
              (temps ++ [Stateful.IntArray fs; Stateful.FloatArray avs])).
    rewrite during_unique.
    assert (Hsplit : during h us fs avs
                       (temps ++ [Stateful.IntArray fs;
                                  Stateful.FloatArray avs]) =
                     (during h us fs avs temps ++ [Stateful.IntArray fs]) ++
                     [Stateful.FloatArray avs]).
    { unfold during. rewrite <- !app_assoc. reflexivity. }
    rewrite Hsplit.
    rewrite (nth_old _ _ _ _ (nth_last (during h us fs avs temps) _)).
    replace (S (length (during h us fs avs temps)))
      with (length (during h us fs avs temps ++ [Stateful.IntArray fs]))
      by (rewrite length_app; cbn; lia).
    now rewrite nth_last.
  - cbn [fst snd rbind].
    exists (Stateful.IntArray us :: Stateful.IntList fs ::
            Stateful.FloatList avs :: temps).
    split; reflexivity.
Qed.

End OneCall.

End StatefulAggregator.

(** C8: two calls of the aggregator on arrays with the same contents, made
    in any two heaps (the second possibly the heap the first call left),
    have the same outcome: both raise the same exception, or both return
    arrays of identical contents, the contents the aggregator computes
    from the contents of the two inputs alone.  Each call leaves every
    object that existed before it, the inputs among them, as it was: it
    only adds new objects. *)
Theorem analyze_is_pure {F : Type} (np_mean : list F -> F)
    (h1 h2 : @Stateful.heap F)
    (years1 magnitudes1 years2 magnitudes2 : nat)
    (ys : list Z) (ms : list F) :
  nth_error h1 years1 = Some (Stateful.IntArray ys) ->
  nth_error h1 magnitudes1 = Some (Stateful.FloatArray ms) ->
  nth_error h2 years2 = Some (Stateful.IntArray ys) ->
  nth_error h2 magnitudes2 = Some (Stateful.FloatArray ms) ->
  exists fresh1 fresh2,
    snd (Stateful.analyze_earthquakes_by_year
           np_mean years1 magnitudes1 h1) = h1 ++ fresh1 /\
    snd (Stateful.analyze_earthquakes_by_year
           np_mean years2 magnitudes2 h2) = h2 ++ fresh2 /\
    match
      fst (Stateful.analyze_earthquakes_by_year
             np_mean years1 magnitudes1 h1),
      fst (Stateful.analyze_earthquakes_by_year
             np_mean years2 magnitudes2 h2)
    with
    | Ok r1, Ok r2 =>
        exists out,
          Stateful.contents (h1 ++ fresh1) r1 = Some out /\
          Stateful.contents (h2 ++ fresh2) r2 = Some out /\
          Generic.analyze_earthquakes_by_year np_mean ys ms = Ok out
    | Raise e1, Raise e2 =>
        e1 = e2 /\
        Generic.analyze_earthquakes_by_year np_mean ys ms = Raise e1
    | _, _ => False
    end.
Proof.
  intros Hy1 Hm1 Hy2 Hm2.
  destruct (analyze_refines np_mean h1 years1 magnitudes1 ys ms Hy1 Hm1)
    as (fresh1 & Hframe1 & Hout1).
  destruct (analyze_refines np_mean h2 years2 magnitudes2 ys ms Hy2 Hm2)
    as (fresh2 & Hframe2 & Hout2).
  exists fresh1, fresh2. split; [exact Hframe1|]. split; [exact Hframe2|].
  destruct (Generic.analyze_earthquakes_by_year np_mean ys ms) as [out|e].
  - destruct Hout1 as (r1 & -> & Hc1). destruct Hout2 as (r2 & -> & Hc2).
    exists out. repeat split; assumption.
  - rewrite Hout1, Hout2. split; reflexivity.
Qed.

Lemma analyze_is_pure_witness :
  let ys := [2000; 2000; 2001] in
  let ms := [Binary64.nearest 2 1; Binary64.nearest 4 1;
             Binary64.nearest 3 1] in
  let h1 := [Stateful.IntArray ys; Stateful.FloatArray ms] in
  let h2 := [Stateful.FloatArray ms; Stateful.IntList [7];
             Stateful.IntArray ys] in
  exists fresh1 fresh2,
    snd (Stateful.analyze_earthquakes_by_year
           Binary64.mean_of_few 0 1 h1) = h1 ++ fresh1 /\
    snd (Stateful.analyze_earthquakes_by_year
           Binary64.mean_of_few 2 0 h2) = h2 ++ fresh2 /\
    match
      fst (Stateful.analyze_earthquakes_by_year
             Binary64.mean_of_few 0 1 h1),
      fst (Stateful.analyze_earthquakes_by_year
             Binary64.mean_of_few 2 0 h2)
    with
    | Ok r1, Ok r2 =>
        exists out,
          Stateful.contents (h1 ++ fresh1) r1 = Some out /\
          Stateful.contents (h2 ++ fresh2) r2 = Some out /\
          Generic.analyze_earthquakes_by_year Binary64.mean_of_few ys ms =
            Ok out
    | Raise e1, Raise e2 =>
        e1 = e2 /\
        Generic.analyze_earthquakes_by_year Binary64.mean_of_few ys ms =
          Raise e1
    | _, _ => False
    end.
Proof.
  intros ys ms h1 h2.
  apply (analyze_is_pure Binary64.mean_of_few
           [Stateful.IntArray [2000; 2000; 2001];
            Stateful.FloatArray [Binary64.nearest 2 1; Binary64.nearest 4 1;
                                 Binary64.nearest 3 1]]
           [Stateful.FloatArray [Binary64.nearest 2 1; Binary64.nearest 4 1;
                                 Binary64.nearest 3 1];
            Stateful.IntList [7];
            Stateful.IntArray [2000; 2000; 2001]]
           0%nat 1%nat 2%nat 0%nat
           [2000; 2000; 2001]
           [Binary64.nearest 2 1; Binary64.nearest 4 1;
            Binary64.nearest 3 1]);
    reflexivity.
Defined.

(** A run on a heap of two arrays: the call returns three new arrays and
    leaves its inputs in place. *)
Example analyze_on_heap :
  let h := [Stateful.IntArray [2001; 2000; 2001];
            Stateful.FloatArray [Fin 2; Fin 4; Fin 3]] in
  exists r h',
    Stateful.analyze_earthquakes_by_year np.mean 0 1 h = (Ok r, h') /\
    Stateful.contents h' r = Some ([2000; 2001], [1; 2], [Fin 4; Fin (5 # 2)]) /\
    firstn 2 h' = h.
Proof.
  intro h. eexists _, _. split; [vm_compute; reflexivity|].
  split; reflexivity.
Qed.
